(** * fileConvertor.py: the CAD conversion endpoint, embedded in Rocq

    The repository is one Flask module, [src/fileConvertor.py].  It
    sequences calls into an external CAD kernel (FreeCAD), an object
    store (boto3 / S3) and a document store (pymongo), and owns only the
    orchestration: extension dispatch, the [.off] writer, the job status
    updates and the exception policy.

    The embedding follows the module function by function.  Python
    statements become computations of a state-and-exception monad over an
    explicit world (local disk, kernel documents, the Mongo collection,
    the S3 calls, stdout).  What the external libraries compute is taken
    as a parameter: a class of oracles that may answer or raise. *)

From Stdlib Require Import ZArith Ascii String DecimalString Lia.
From stdpp Require Import gmap strings list fin_maps.

Open Scope string_scope.

Set Warnings "-clear-no-such-hyp".

(** ** Python built-ins used by the module *)

Module Py.

(** [str.lower] on the ASCII range. *)
Definition lower_ascii (c : ascii) : ascii :=
  let n := nat_of_ascii c in
  if (65 <=? n)%nat && (n <=? 90)%nat then ascii_of_nat (n + 32) else c.

Fixpoint lower (s : string) : string :=
  match s with
  | EmptyString => EmptyString
  | String c r => String (lower_ascii c) (lower r)
  end.

(** [s.rfind(c)]: index of the last occurrence, [-1] when there is none. *)
Fixpoint rfind_from (c : ascii) (s : string) (i : Z) (last : Z) : Z :=
  match s with
  | EmptyString => last
  | String d r =>
      rfind_from c r (i + 1) (if Ascii.eqb d c then i else last)
  end.

Definition rfind (c : ascii) (s : string) : Z := rfind_from c s 0 (-1).

(** Slices [s[i:]] and [s[:i]] for a non-negative index. *)
Fixpoint drop_str (n : nat) (s : string) : string :=
  match n, s with
  | O, _ => s
  | S k, EmptyString => EmptyString
  | S k, String _ r => drop_str k r
  end.

Fixpoint take_str (n : nat) (s : string) : string :=
  match n, s with
  | O, _ => EmptyString
  | S k, EmptyString => EmptyString
  | S k, String c r => String c (take_str k r)
  end.

Definition slice_from (i : Z) (s : string) : string := drop_str (Z.to_nat i) s.
Definition slice_to (i : Z) (s : string) : string := take_str (Z.to_nat i) s.

(** [s[i:i+1]], the empty string past the end. *)
Definition char_at (i : Z) (s : string) : string :=
  take_str 1 (slice_from i s).

(** [posixpath.basename]:
    [i = p.rfind('/') + 1; return p[i:]]. *)
Definition basename (p : string) : string :=
  let i := (rfind "/" p + 1)%Z in
  slice_from i p.

(** [genericpath._splitext] with [sep = '/'], [altsep = None] and
    [extsep = '.'].  The [while] loop skips the leading dots of the
    file name; it runs at most [dotIndex - filenameIndex] times, which
    is the fuel. *)
Fixpoint splitext_loop (fuel : nat) (p : string) (filenameIndex dotIndex : Z)
  : string * string :=
  match fuel with
  | O => (p, EmptyString)
  | S k =>
      if (filenameIndex <? dotIndex)%Z then
        if negb (String.eqb (char_at filenameIndex p) ".") then
          (slice_to dotIndex p, slice_from dotIndex p)
        else splitext_loop k p (filenameIndex + 1) dotIndex
      else (p, EmptyString)
  end.

Definition splitext (p : string) : string * string :=
  let sepIndex := rfind "/" p in
  let dotIndex := rfind "." p in
  if (sepIndex <? dotIndex)%Z then
    let filenameIndex := (sepIndex + 1)%Z in
    splitext_loop (Z.to_nat (dotIndex - filenameIndex)) p filenameIndex dotIndex
  else (p, EmptyString).

(** [sep.join(parts)]. *)
Fixpoint join (sep : string) (parts : list string) : string :=
  match parts with
  | [] => EmptyString
  | [x] => x
  | x :: rest => x +:+ sep +:+ join sep rest
  end.

(** [str(n)] for a non-negative [int], here a length. *)
Definition str_nat (n : nat) : string := NilEmpty.string_of_uint (Nat.to_uint n).

(** Truth value of a string-or-[None]: [None] and [''] are falsy. *)
Definition truthy (v : option string) : bool :=
  match v with
  | Some s => negb (String.eqb s "")
  | None => false
  end.

(** [x in (a, b, ...)] on strings. *)
Definition in_tuple (x : string) (t : list string) : bool :=
  existsb (String.eqb x) t.

Definition nl : string := String (ascii_of_nat 10) EmptyString.

End Py.

(** ** Exceptions, outcomes and the monad of statements *)

(** The exception classes the module raises or names in an [except]
    clause.  [OtherException] is any further subclass of [Exception]
    (kernel errors, transport errors of the S3 client). *)
Inductive exn_class :=
| FileNotFoundError
| PermissionError
| OSError
| ValueError
| UnboundLocalError
| NoCredentialsError
| PartialCredentialsError
| OtherException.

Record exn := Exn { exn_kind : exn_class; exn_msg : string }.

(** [str(e)], as the f-strings and the handler use it. *)
Definition str_exn (e : exn) : string := exn_msg e.

Inductive outcome (A : Type) :=
| Ret (a : A)
| Raise (e : exn).
Arguments Ret {A} a.
Arguments Raise {A} e.

Definition returned {A} (r : outcome A) : bool :=
  match r with Ret _ => true | Raise _ => false end.

(** A statement runs on a state [S] and either returns or raises; the
    state it leaves is kept in both cases. *)
Definition M (S A : Type) : Type := S -> outcome A * S.

Definition ret {S A} (a : A) : M S A := fun s => (Ret a, s).

Definition raise {S A} (e : exn) : M S A := fun s => (Raise e, s).

Definition bind {S A B} (m : M S A) (k : A -> M S B) : M S B :=
  fun s =>
    match m s with
    | (Ret a, s') => k a s'
    | (Raise e, s') => (Raise e, s')
    end.

(** [try: body / except Exception as e: handler e]. *)
Definition try_except {S A} (body : M S A) (handler : exn -> M S A) : M S A :=
  fun s =>
    match body s with
    | (Ret a, s') => (Ret a, s')
    | (Raise e, s') => handler e s'
    end.

(** [try: body / finally: final].  The [finally] suite runs on every
    exit; if it raises, that exception replaces the outcome. *)
Definition try_finally {S A} (body : M S A) (final : M S unit) : M S A :=
  fun s =>
    let (r, s') := body s in
    match final s' with
    | (Ret _, s'') => (r, s'')
    | (Raise e, s'') => (Raise e, s'')
    end.

Definition gets {S A} (f : S -> A) : M S A := fun s => (Ret (f s), s).
Definition modify {S} (f : S -> S) : M S unit := fun s => (Ret tt, f s).

(** [for x in xs: body x]. *)
Fixpoint for_each {S A} (xs : list A) (body : A -> M S unit) : M S unit :=
  match xs with
  | [] => ret tt
  | x :: rest => bind (body x) (fun _ => for_each rest body)
  end.

Declare Scope py_scope.
Delimit Scope py_scope with py.
Notation "x <- m ;; k" := (bind m (fun x => k))
  (at level 100, m at next level, right associativity) : py_scope.
Notation "m ;; k" := (bind m (fun _ => k))
  (at level 100, right associativity) : py_scope.
Open Scope py_scope.

(** ** Persisted job records *)

Inductive Status := PENDING | PROCESSING | UPLOADING | COMPLETED | FAILED.

(** One document of the collection (lines 224-230 and the [$set]
    updates).  A field that holds [None] or was never set reads [None]. *)
Record Job := {
  job_s3_bucket : option string;
  job_status : Status;
  job_organization_id : string;
  job_expiryAt : Z;
  job_error : option string;
  job_s3_link : option string
}.

(** The three shapes of [{"$set": ...}] the handler sends. *)
Inductive set_doc :=
| SetStatus (s : Status)
| SetStatusError (s : Status) (err : string)
| SetStatusLink (s : Status) (link : option string).

Definition apply_set (u : set_doc) (j : Job) : Job :=
  match u with
  | SetStatus s =>
      {| job_s3_bucket := job_s3_bucket j; job_status := s;
         job_organization_id := job_organization_id j;
         job_expiryAt := job_expiryAt j; job_error := job_error j;
         job_s3_link := job_s3_link j |}
  | SetStatusError s err =>
      {| job_s3_bucket := job_s3_bucket j; job_status := s;
         job_organization_id := job_organization_id j;
         job_expiryAt := job_expiryAt j; job_error := Some err;
         job_s3_link := job_s3_link j |}
  | SetStatusLink s link =>
      {| job_s3_bucket := job_s3_bucket j; job_status := s;
         job_organization_id := job_organization_id j;
         job_expiryAt := job_expiryAt j; job_error := job_error j;
         job_s3_link := link |}
  end.

Definition set_doc_status (u : set_doc) : Status :=
  match u with
  | SetStatus s | SetStatusError s _ | SetStatusLink s _ => s
  end.

(** A write sent to the document store. *)
Inductive db_write :=
| InsertOne (oid : nat) (doc : Job)
| UpdateOne (oid : nat) (u : set_doc).

(** The status values written to record [oid], oldest first. *)
Fixpoint statuses_written (oid : nat) (log : list db_write) : list Status :=
  match log with
  | [] => []
  | InsertOne i doc :: rest =>
      if Nat.eqb i oid then job_status doc :: statuses_written oid rest
      else statuses_written oid rest
  | UpdateOne i u :: rest =>
      if Nat.eqb i oid then set_doc_status u :: statuses_written oid rest
      else statuses_written oid rest
  end.

(** ** The external collaborators *)

(** Types the CAD kernel owns.  Coordinates and the tolerance are Python
    floats, printed by [str]; the model keeps them abstract together with
    their printer.  [FacetPoint] is the type of the items of
    [facet.Points]; [Shape] is [Part.Shape]. *)
Class KernelData := {
  float : Type;
  str_float : float -> string;
  default_tolerance : float;            (* the default [tolerance=0.1] *)
  FacetPoint : Type;
  str_facet_point : FacetPoint -> string;
  Shape : Type
}.

Section Model.

Context {KD : KernelData}.

Record MeshPoint := { point_x : float; point_y : float; point_z : float }.

Record Facet := { facet_Points : list FacetPoint }.

(** A [Mesh.Mesh] object as far as [export_off] reads it. *)
Record Mesh := { mesh_Points : list MeshPoint; mesh_Facets : list Facet }.

(** Calls that leave the module, in the order they are made. *)
Inductive call :=
| CallNewDocument (label : string)
| CallCloseDocument (name : string)
| CallMeshRead (path : string)
| CallMakeShapeFromMesh (tolerance : float)
| CallShapeRead (path : string)
| CallExportStep (path : string)
| CallExportIges (path : string)
| CallExportBrep (path : string)
| CallTessellate (tolerance : float)
| CallMeshWrite (path : string)
| CallS3Upload (file_name bucket_name object_name : string)
| CallS3Presign (bucket_name object_name : string) (expiration : nat).

(** What the outside world answers.  Every oracle may raise any
    exception; a kernel writer also says what it left on disk. *)
Class Env := {
  (* open(path, "w") is permitted *)
  writable : string -> bool;
  (* FreeCAD's choice of a document name that is not in use *)
  unique_document_name : string -> gset string -> string;
  (* Mesh.Mesh().read(path) *)
  Mesh_read : gmap string string -> string -> outcome Mesh;
  (* Part.Shape().makeShapeFromMesh(mesh.Topology, tolerance) *)
  Shape_makeShapeFromMesh : Mesh -> float -> outcome Shape;
  (* Part.Shape().read(path) *)
  Shape_read : gmap string string -> string -> outcome Shape;
  Shape_exportStep :
    Shape -> string -> gmap string string -> outcome unit * gmap string string;
  Shape_exportIges :
    Shape -> string -> gmap string string -> outcome unit * gmap string string;
  Shape_exportBrep :
    Shape -> string -> gmap string string -> outcome unit * gmap string string;
  (* Mesh.Mesh(shape.tessellate(tolerance)) *)
  Shape_tessellate : Shape -> float -> outcome Mesh;
  Mesh_write :
    Mesh -> string -> gmap string string -> outcome unit * gmap string string;
  (* the transfer of an existing local file: content, bucket, key *)
  s3_put : string -> string -> string -> option exn;
  (* s3_client.generate_presigned_url('get_object', ...) *)
  s3_presign : string -> string -> nat -> outcome string
}.

Context {E : Env}.

(** ** The world the module runs in *)

Record World := {
  files : gmap string string;          (* local disk: path to contents *)
  disk_free : nat;                     (* characters that can still be written *)
  documents : gset string;             (* open kernel documents, by name *)
  ActiveDocument : option string;      (* FreeCAD.ActiveDocument *)
  calls : list call;
  collection : gmap nat Job;           (* the Mongo collection, by _id *)
  db_log : list db_write;
  now : Z;                             (* datetime.now(), in seconds *)
  stdout : list string
}.

Definition set_files (v : gmap string string) (w : World) : World :=
  {| files := v; disk_free := disk_free w; documents := documents w;
     ActiveDocument := ActiveDocument w; calls := calls w;
     collection := collection w; db_log := db_log w; now := now w;
     stdout := stdout w |}.

Definition set_disk_free (v : nat) (w : World) : World :=
  {| files := files w; disk_free := v; documents := documents w;
     ActiveDocument := ActiveDocument w; calls := calls w;
     collection := collection w; db_log := db_log w; now := now w;
     stdout := stdout w |}.

Definition set_documents (v : gset string) (a : option string) (w : World) : World :=
  {| files := files w; disk_free := disk_free w; documents := v;
     ActiveDocument := a; calls := calls w;
     collection := collection w; db_log := db_log w; now := now w;
     stdout := stdout w |}.

Definition log_call (c : call) (w : World) : World :=
  {| files := files w; disk_free := disk_free w; documents := documents w;
     ActiveDocument := ActiveDocument w; calls := calls w ++ [c];
     collection := collection w; db_log := db_log w; now := now w;
     stdout := stdout w |}.

Definition set_collection (v : gmap nat Job) (d : db_write) (w : World) : World :=
  {| files := files w; disk_free := disk_free w; documents := documents w;
     ActiveDocument := ActiveDocument w; calls := calls w;
     collection := v; db_log := db_log w ++ [d]; now := now w;
     stdout := stdout w |}.

Definition log_stdout (line : string) (w : World) : World :=
  {| files := files w; disk_free := disk_free w; documents := documents w;
     ActiveDocument := ActiveDocument w; calls := calls w;
     collection := collection w; db_log := db_log w; now := now w;
     stdout := stdout w ++ [line] |}.

(** *** Primitive statements *)

Definition print (line : string) : M World unit := modify (log_stdout line).

(** [os.path.exists(path)] on a disk of plain files. *)
Definition os_path_exists (path : string) : M World bool :=
  gets (fun w => bool_decide (is_Some (files w !! path))).

(** [open(path, "w")]: refused when the path is not writable, otherwise
    the file is created or truncated. *)
Definition open_w (path : string) : M World unit :=
  fun w =>
    if writable path then (Ret tt, set_files (<[path := ""]> (files w)) w)
    else (Raise (Exn PermissionError ("[Errno 13] Permission denied: '" +:+ path +:+ "'")), w).

(** [f.write(text)] on the file opened at [path]: appends, or fails when
    the disk is full. *)
Definition file_write (path text : string) : M World unit :=
  fun w =>
    if (String.length text <=? disk_free w)%nat then
      (Ret tt,
       set_disk_free (disk_free w - String.length text)
         (set_files (<[path := default "" (files w !! path) +:+ text]> (files w)) w))
    else (Raise (Exn OSError "[Errno 28] No space left on device"), w).

(** [with open(path, "w") as f: body]; closing the file changes nothing
    the model tracks. *)
Definition with_open_w {A} (path : string) (body : M World A) : M World A :=
  open_w path ;; try_finally body (ret tt).

(** A kernel call that only computes. *)
Definition kernel_call {A} (c : call) (answer : World -> outcome A) : M World A :=
  fun w => (answer w, log_call c w).

(** A kernel call that writes to disk. *)
Definition kernel_export (c : call)
    (writer : gmap string string -> outcome unit * gmap string string) : M World unit :=
  fun w =>
    let (r, fs) := writer (files w) in
    (r, set_files fs (log_call c w)).

(** [FreeCAD.newDocument(label)] opens a document and makes it active. *)
Definition newDocument (label : string) : M World unit :=
  fun w =>
    let name := unique_document_name label (documents w) in
    (Ret tt,
     set_documents ({[name]} ∪ documents w) (Some name)
       (log_call (CallNewDocument label) w)).

(** [FreeCAD.closeDocument(name)] closes it; an active document that is
    closed leaves no active document. *)
Definition closeDocument (name : string) : M World unit :=
  fun w =>
    (Ret tt,
     set_documents (documents w ∖ {[name]})
       (if bool_decide (ActiveDocument w = Some name) then None
        else ActiveDocument w)
       (log_call (CallCloseDocument name) w)).

(** [s3_client.upload_file(file_name, bucket, key)]: a missing local file
    raises [FileNotFoundError] (the clause at line 190 is there for it);
    otherwise the transfer decides. *)
Definition s3_upload_file (file_name bucket_name object_name : string) : M World unit :=
  fun w =>
    let w' := log_call (CallS3Upload file_name bucket_name object_name) w in
    match files w !! file_name with
    | None =>
        (Raise (Exn FileNotFoundError
                  ("[Errno 2] No such file or directory: '" +:+ file_name +:+ "'")), w')
    | Some content =>
        match s3_put content bucket_name object_name with
        | None => (Ret tt, w')
        | Some e => (Raise e, w')
        end
    end.

(** [collection.insert_one(doc)]: stores the document under a fresh
    [_id] and returns it. *)
Definition insert_one (doc : Job) : M World nat :=
  fun w =>
    let oid := fresh (dom (collection w)) in
    (Ret oid, set_collection (<[oid := doc]> (collection w)) (InsertOne oid doc) w).

(** [collection.update_one({"_id": oid}, {"$set": u})]: an unconditional
    write to the matching document, if there is one. *)
Definition update_one (oid : nat) (u : set_doc) : M World unit :=
  fun w =>
    (Ret tt, set_collection (alter (apply_set u) oid (collection w)) (UpdateOne oid u) w).

(** ** The module's functions *)

(** [generate_output_file], lines 40-54. *)
Definition generate_output_file (input_file output_format : string) : string :=
  let base_name := fst (Py.splitext (Py.basename input_file)) in
  let output_file := base_name +:+ "." +:+ Py.lower output_format in
  output_file.

(** [generate_presigned_url], lines 56-74: the URL, or [None] on any
    exception. *)
Definition generate_presigned_url (bucket_name object_name : string)
    (expiration : nat) : M World (option string) :=
  try_except
    (response <- kernel_call (CallS3Presign bucket_name object_name expiration)
                   (fun _ => s3_presign bucket_name object_name expiration) ;;
     ret (Some response))
    (fun e =>
       print ("Error generating pre-signed URL: " +:+ str_exn e) ;;
       ret None).

(** [export_off], lines 150-172. *)
Definition off_vertex_text (point : MeshPoint) : string :=
  str_float (point_x point) +:+ " " +:+ str_float (point_y point) +:+ " "
    +:+ str_float (point_z point) +:+ Py.nl.

Definition off_face_text (facet : Facet) : string :=
  let vertices := facet_Points facet in
  Py.str_nat (length vertices) +:+ " "
    +:+ Py.join " " (map str_facet_point vertices) +:+ Py.nl.

Definition export_off_try (mesh : Mesh) (output_file : string) : M World unit :=
  with_open_w output_file
    ((* Write the OFF header *)
     file_write output_file ("OFF" +:+ Py.nl) ;;
     file_write output_file
       (Py.str_nat (length (mesh_Points mesh)) +:+ " "
          +:+ Py.str_nat (length (mesh_Facets mesh)) +:+ " 0" +:+ Py.nl) ;;
     (* Write vertices *)
     for_each (mesh_Points mesh)
       (fun point => file_write output_file (off_vertex_text point)) ;;
     (* Write faces *)
     for_each (mesh_Facets mesh)
       (fun facet => file_write output_file (off_face_text facet))) ;;
  print ("Exported .off file: " +:+ output_file).

Definition export_off (mesh : Mesh) (output_file : string) : M World unit :=
  try_except
    (export_off_try mesh output_file)
    (fun e => print ("Error exporting .off file: " +:+ str_exn e)).

(** [convert_step], lines 76-148.  The two [if] chains of its [try]
    suite are named: [load_shape] is lines 97-114, [export_shape] is
    lines 116-137. *)
Definition load_shape (input_file : string) (tolerance : float) : M World Shape :=
  (* Check the input file extension *)
  let input_extension := Py.lower (snd (Py.splitext input_file)) in
  (* Handle OBJ, STL, PLY, and OFF files separately *)
  if Py.in_tuple input_extension [".obj"; ".stl"; ".ply"; ".off"] then
    print ("Loading " +:+ input_extension +:+ " file as a mesh...") ;;
    mesh <- kernel_call (CallMeshRead input_file)
              (fun w => Mesh_read (files w) input_file) ;;
    print (input_extension +:+ " file loaded. Converting mesh to shape...") ;;
    shape <- kernel_call (CallMakeShapeFromMesh tolerance)
               (fun _ => Shape_makeShapeFromMesh mesh tolerance) ;;
    print "Mesh converted to shape." ;;
    ret shape
  else
    (* Load the input file (for non-mesh formats) *)
    print ("Loading input file (" +:+ input_extension +:+ ")...") ;;
    shape <- kernel_call (CallShapeRead input_file)
               (fun w => Shape_read (files w) input_file) ;;
    print "Input file loaded." ;;
    ret shape.

Definition export_shape (shape : Shape) (output_file output_format : string)
    (tolerance : float) : M World unit :=
  if Py.in_tuple (Py.lower output_format) ["stp"; "step"] then
    kernel_export (CallExportStep output_file) (Shape_exportStep shape output_file)
  else if Py.in_tuple (Py.lower output_format) ["iges"; "igs"] then
    kernel_export (CallExportIges output_file) (Shape_exportIges shape output_file)
  else if String.eqb (Py.lower output_format) "stl" then
    mesh <- kernel_call (CallTessellate tolerance)
              (fun _ => Shape_tessellate shape tolerance) ;;
    kernel_export (CallMeshWrite output_file) (Mesh_write mesh output_file)
  else if String.eqb (Py.lower output_format) "obj" then
    mesh <- kernel_call (CallTessellate tolerance)
              (fun _ => Shape_tessellate shape tolerance) ;;
    kernel_export (CallMeshWrite output_file) (Mesh_write mesh output_file)
  else if String.eqb (Py.lower output_format) "ply" then
    mesh <- kernel_call (CallTessellate tolerance)
              (fun _ => Shape_tessellate shape tolerance) ;;
    kernel_export (CallMeshWrite output_file) (Mesh_write mesh output_file)
  else if Py.in_tuple (Py.lower output_format) ["brep"; "brp"] then
    kernel_export (CallExportBrep output_file) (Shape_exportBrep shape output_file)
  else if String.eqb (Py.lower output_format) "off" then
    mesh <- kernel_call (CallTessellate tolerance)
              (fun _ => Shape_tessellate shape tolerance) ;;
    export_off mesh output_file
  else
    raise (Exn ValueError ("Unsupported output format: " +:+ output_format)).

Definition convert_step_try (input_file output_file output_format : string)
    (tolerance : float) : M World bool :=
  print "Starting conversion..." ;;
  print ("Input file: " +:+ input_file) ;;
  print ("Output file: " +:+ output_file) ;;
  print ("Output format: " +:+ output_format) ;;
  (* Verify input file exists *)
  found <- os_path_exists input_file ;;
  (if negb found
   then raise (Exn FileNotFoundError ("Input file not found: " +:+ input_file))
   else ret tt) ;;
  (* Initialize FreeCAD (if not already initialized) *)
  print "Initializing FreeCAD..." ;;
  doc <- gets ActiveDocument ;;
  (if negb (bool_decide (is_Some doc))
   then newDocument "ConversionDocument"
   else ret tt) ;;
  print "FreeCAD initialized." ;;
  shape <- load_shape input_file tolerance ;;
  (* Perform the conversion based on the output format *)
  print ("Exporting to " +:+ output_format +:+ "...") ;;
  export_shape shape output_file output_format tolerance ;;
  print ("File converted successfully: " +:+ output_file) ;;
  ret true.

(** The [finally] suite, lines 145-148. *)
Definition convert_step_finally : M World unit :=
  doc <- gets ActiveDocument ;;
  match doc with
  | Some name => closeDocument name
  | None => ret tt
  end.

Definition convert_step (input_file output_file output_format : string)
    (tolerance : float) : M World bool :=
  try_finally
    (try_except
       (convert_step_try input_file output_file output_format tolerance)
       (fun e =>
          print ("Error during conversion: " +:+ str_exn e) ;;
          ret false))
    convert_step_finally.

(** [upload_to_s3], lines 174-201. *)
Definition upload_to_s3 (file_name bucket_name : string)
    (object_name : option string) : M World bool :=
  let object_name :=
    match object_name with
    | None => file_name
    | Some name => name
    end in
  try_except
    (s3_upload_file file_name bucket_name object_name ;;
     print ("File " +:+ file_name +:+ " uploaded to " +:+ bucket_name +:+ "/"
              +:+ object_name) ;;
     ret true)
    (fun e =>
       match exn_kind e with
       | FileNotFoundError =>
           print ("The file " +:+ file_name +:+ " was not found") ;; ret false
       | NoCredentialsError =>
           print "Credentials not available" ;; ret false
       | PartialCredentialsError =>
           print "Incomplete credentials provided" ;; ret false
       | _ =>
           print ("Error uploading to S3: " +:+ str_exn e) ;; ret false
       end).

(** ** The request handler *)

Inductive json := JNull | JString (s : string).

Definition json_of (v : option string) : json :=
  match v with
  | Some s => JString s
  | None => JNull
  end.

(** [jsonify({...}), code]. *)
Record Response := { body : gmap string json; code : nat }.

Definition jsonify (fields : list (string * json)) : gmap string json :=
  list_to_map fields.

(** The local variables of [convert] that are bound on some paths only.
    [result] is read through [locals()] by the [except] suite, and
    [s3_download_link] is assigned inside [if s3_bucket:] alone.  An
    unbound name is [None]; the value of a bound [s3_download_link] is a
    string or Python's [None]. *)
Record Locals := {
  result : option nat;
  s3_download_link : option (option string)
}.

Definition no_locals : Locals := {| result := None; s3_download_link := None |}.

Definition liftW {A} (m : M World A) : M (Locals * World) A :=
  fun s =>
    let (r, w') := m (snd s) in
    (r, (fst s, w')).

Definition assign_result (oid : nat) : M (Locals * World) unit :=
  modify (fun s =>
            ({| result := Some oid; s3_download_link := s3_download_link (fst s) |},
             snd s)).

Definition assign_s3_download_link (v : option string) : M (Locals * World) unit :=
  modify (fun s =>
            ({| result := result (fst s); s3_download_link := Some v |}, snd s)).

(** Reading [s3_download_link]: an unbound local raises. *)
Definition unbound_s3_download_link : exn :=
  Exn UnboundLocalError
    "cannot access local variable 's3_download_link' where it is not associated with a value".

Definition load_s3_download_link : M (Locals * World) (option string) :=
  fun s =>
    match s3_download_link (fst s) with
    | Some v => (Ret v, s)
    | None => (Raise unbound_s3_download_link, s)
    end.

(** Runs a function body on a fresh frame. *)
Definition call_frame {A} (m : M (Locals * World) A) : M World A :=
  fun w =>
    let (r, s) := m (no_locals, w) in
    (r, snd s).

(** [str(result.inserted_id)]. *)
Definition str_oid (oid : nat) : string := Py.str_nat oid.

(** The [try] suite of [convert], lines 210-288. *)
Definition convert_try (data : gmap string string) : M (Locals * World) Response :=
  (* Get data from the request *)
  let input_file := data !! "input_file" in
  let output_format := data !! "output_format" in
  let organization_id := data !! "organization_id" in
  let s3_bucket := data !! "s3_bucket" in
  if negb (Py.truthy input_file) || negb (Py.truthy output_format)
     || negb (Py.truthy organization_id)
  then
    ret {| body := jsonify [("error", JString "Missing required parameters: input_file, output_format, organization_id")];
           code := 400 |}
  else
    (* past the check the three are non-empty strings *)
    let input_file := default "" input_file in
    let output_format := default "" output_format in
    let organization_id := default "" organization_id in
    (* Generate the output file name *)
    let output_file := generate_output_file input_file output_format in
    (* Log conversion details in MongoDB *)
    t <- liftW (gets now) ;;
    let conversion_record :=
      {| job_s3_bucket := s3_bucket;
         job_status := PENDING;
         job_organization_id := organization_id;
         job_expiryAt := (t + 86400)%Z;
         job_error := None;
         job_s3_link := None |} in
    inserted_id <- liftW (insert_one conversion_record) ;;
    assign_result inserted_id ;;
    let conversion_id := str_oid inserted_id in
    (* Update status to PROCESSING *)
    liftW (update_one inserted_id (SetStatus PROCESSING)) ;;
    (* Perform the conversion *)
    success <- liftW (convert_step input_file output_file output_format default_tolerance) ;;
    if negb success then
      liftW (update_one inserted_id (SetStatusError FAILED "Conversion failed")) ;;
      ret {| body := jsonify [("error", JString "Conversion failed");
                              ("conversion_id", JString conversion_id)];
             code := 500 |}
    else
      (* Update status to UPLOADING *)
      liftW (update_one inserted_id (SetStatus UPLOADING)) ;;
      (* the statements after the [if s3_bucket:] suite *)
      let completed : M (Locals * World) Response :=
        link <- load_s3_download_link ;;
        liftW (update_one inserted_id (SetStatusLink COMPLETED link)) ;;
        ret {| body := jsonify [("message", JString "File converted and uploaded successfully");
                                ("output_file", JString output_file);
                                ("conversion_id", JString conversion_id);
                                ("s3_download_link", json_of link)];
               code := 200 |} in
      (* Upload to S3 if bucket is provided *)
      if Py.truthy s3_bucket then
        let s3_bucket := default "" s3_bucket in
        upload_success <- liftW (upload_to_s3 output_file s3_bucket None) ;;
        if negb upload_success then
          liftW (update_one inserted_id (SetStatusError FAILED "S3 upload failed")) ;;
          ret {| body := jsonify [("error", JString "S3 upload failed");
                                  ("conversion_id", JString conversion_id)];
                 code := 500 |}
        else
          (* Generate pre-signed URL for the uploaded file *)
          let s3_object_name := Py.basename output_file in
          link <- liftW (generate_presigned_url s3_bucket s3_object_name 3600) ;;
          assign_s3_download_link link ;;
          if negb (Py.truthy link) then
            liftW (update_one inserted_id
                     (SetStatusError FAILED "Failed to generate S3 download link")) ;;
            ret {| body := jsonify [("error", JString "Failed to generate S3 download link");
                                    ("conversion_id", JString conversion_id)];
                   code := 500 |}
          else completed
      else completed.

(** The [except Exception as e] suite, lines 290-297. *)
Definition convert_except (e : exn) : M (Locals * World) Response :=
  r <- gets (fun s => result (fst s)) ;;
  (* Log error in MongoDB *)
  match r with
  | Some inserted_id =>
      liftW (update_one inserted_id (SetStatusError FAILED (str_exn e)))
  | None => ret tt
  end ;;
  ret {| body := jsonify [("error", JString (str_exn e))]; code := 500 |}.

(** [convert], the [POST /convert] view, on the parsed JSON object. *)
Definition convert (data : gmap string string) : M World Response :=
  call_frame (try_except (convert_try data) convert_except).


(** ** Specification-side definitions *)

(** A statement that returns on every state, and one that leaves an
    observation of the state unchanged. *)
Definition never_raises {S A} (m : M S A) : Prop :=
  forall s, returned (fst (m s)) = true.

Definition keeps {S A X} (f : S -> X) (m : M S A) : Prop :=
  forall s, f (snd (m s)) = f s.

(** *** Input classification (spec 4.1) *)

Inductive load_branch := MeshToShape | DirectLoad.

Definition mesh_extensions : list string := [".obj"; ".stl"; ".ply"; ".off"].

(** The branch the spec assigns to an input path: the four mesh
    extensions go through reconstruction, everything else is loaded
    directly. *)
Definition classify (input_file : string) : load_branch :=
  if bool_decide (Py.lower (snd (Py.splitext input_file)) ∈ mesh_extensions)
  then MeshToShape else DirectLoad.

(** A branch is entered by its loader call. *)
Definition branch_of_call (c : call) : option load_branch :=
  match c with
  | CallMeshRead _ => Some MeshToShape
  | CallShapeRead _ => Some DirectLoad
  | _ => None
  end.

Definition branches_entered (cs : list call) : list load_branch :=
  omap branch_of_call cs.

(** What the loader of the classified branch answers on a disk. *)
Definition loaded (fs : gmap string string) (input_file : string)
    (tolerance : float) : outcome Shape :=
  match classify input_file with
  | MeshToShape =>
      match Mesh_read fs input_file with
      | Ret mesh => Shape_makeShapeFromMesh mesh tolerance
      | Raise e => Raise e
      end
  | DirectLoad => Shape_read fs input_file
  end.

(** *** Output dispatch (spec 4.1) *)

Inductive export_op :=
| ExportStep | ExportIges | ExportStl | ExportObj | ExportPly | ExportBrep | ExportOff.

(** The accepted tokens with the operation each one names. *)
Definition export_table : list (string * export_op) :=
  [ ("stp", ExportStep); ("step", ExportStep);
    ("iges", ExportIges); ("igs", ExportIges);
    ("stl", ExportStl); ("obj", ExportObj); ("ply", ExportPly);
    ("brep", ExportBrep); ("brp", ExportBrep);
    ("off", ExportOff) ].

Definition supported_tokens : list string := export_table.*1.

Fixpoint assoc {A} (key : string) (table : list (string * A)) : option A :=
  match table with
  | [] => None
  | (k, v) :: rest => if String.eqb key k then Some v else assoc key rest
  end.

(** The dispatcher's decision for a token, case-insensitive. *)
Definition resolve (output_format : string) : option export_op :=
  assoc (Py.lower output_format) export_table.

(** One export operation on a loaded shape. *)
Definition tessellate_then (shape : Shape) (tolerance : float)
    (k : Mesh -> M World unit) : M World unit :=
  mesh <- kernel_call (CallTessellate tolerance)
            (fun _ => Shape_tessellate shape tolerance) ;;
  k mesh.

Definition run_export_op (op : export_op) (shape : Shape) (output_file : string)
    (tolerance : float) : M World unit :=
  match op with
  | ExportStep =>
      kernel_export (CallExportStep output_file) (Shape_exportStep shape output_file)
  | ExportIges =>
      kernel_export (CallExportIges output_file) (Shape_exportIges shape output_file)
  | ExportBrep =>
      kernel_export (CallExportBrep output_file) (Shape_exportBrep shape output_file)
  | ExportStl | ExportObj | ExportPly =>
      tessellate_then shape tolerance
        (fun mesh =>
           kernel_export (CallMeshWrite output_file) (Mesh_write mesh output_file))
  | ExportOff =>
      tessellate_then shape tolerance (fun mesh => export_off mesh output_file)
  end.

Definition unsupported_format (output_format : string) : exn :=
  Exn ValueError ("Unsupported output format: " +:+ output_format).

(** *** The [.off] file format (spec 6) *)

(** [x y z]. *)
Definition off_vertex_line (point : MeshPoint) : string :=
  Py.join " " [str_float (point_x point); str_float (point_y point);
               str_float (point_z point)].

(** [<n> i0 i1 ... i(n-1)]. *)
Definition off_face_line (facet : Facet) : string :=
  Py.str_nat (length (facet_Points facet)) +:+ " "
    +:+ Py.join " " (map str_facet_point (facet_Points facet)).

(** The lines of the file: [OFF], the counts with the zero placeholder,
    one line per vertex, one line per face. *)
Definition off_lines (mesh : Mesh) : list string :=
  [ "OFF";
    Py.str_nat (length (mesh_Points mesh)) +:+ " "
      +:+ Py.str_nat (length (mesh_Facets mesh)) +:+ " 0" ]
  ++ map off_vertex_line (mesh_Points mesh)
  ++ map off_face_line (mesh_Facets mesh).

(** A text file made of these lines, each ended by a newline. *)
Fixpoint unlines (ls : list string) : string :=
  match ls with
  | [] => ""
  | l :: rest => l +:+ Py.nl +:+ unlines rest
  end.

(** The arguments of the successive [f.write] calls of [export_off]. *)
Definition off_texts (mesh : Mesh) : list string :=
  [ "OFF" +:+ Py.nl;
    Py.str_nat (length (mesh_Points mesh)) +:+ " "
      +:+ Py.str_nat (length (mesh_Facets mesh)) +:+ " 0" +:+ Py.nl ]
  ++ map off_vertex_text (mesh_Points mesh)
  ++ map off_face_text (mesh_Facets mesh).

Definition concat_texts (texts : list string) : string :=
  foldr String.append "" texts.

(** *** The kernel's documents *)

(** The active document and the set of open ones. *)
Definition doc_state (w : World) : option string * gset string :=
  (ActiveDocument w, documents w).

(** *** The job ledger *)

(** What the document store holds and has been sent, with the clock. *)
Definition ledger (w : World) : gmap nat Job * list db_write * Z :=
  (collection w, db_log w, now w).

(** The writes a run added to the document store. *)
Definition new_writes (before after : World) : list db_write :=
  drop (length (db_log before)) (db_log after).

Definition final_status (oid : nat) (w : World) : option Status :=
  job_status <$> collection w !! oid.

(** *** The request, as the handler reads it *)

(** The three required fields are present and non-empty. *)
Definition valid_request (data : gmap string string) : bool :=
  Py.truthy (data !! "input_file") && Py.truthy (data !! "output_format")
  && Py.truthy (data !! "organization_id").

(** The [_id] the next [insert_one] returns. *)
Definition job_oid (w : World) : nat := fresh (dom (collection w)).

(** The record the handler inserts for a request (lines 224-230). *)
Definition job_record (data : gmap string string) (w : World) : Job :=
  {| job_s3_bucket := data !! "s3_bucket";
     job_status := PENDING;
     job_organization_id := default "" (data !! "organization_id");
     job_expiryAt := (now w + 86400)%Z;
     job_error := None;
     job_s3_link := None |}.

(** The two writes every valid request begins with. *)
Definition opening_writes (data : gmap string string) (w : World) : list db_write :=
  [ InsertOne (job_oid w) (job_record data w);
    UpdateOne (job_oid w) (SetStatus PROCESSING) ].

(** The world in which the conversion of a request starts: the record is
    inserted and set to PROCESSING. *)
Definition started (data : gmap string string) (w : World) : World :=
  snd ((inserted_id <- insert_one (job_record data w) ;;
        update_one inserted_id (SetStatus PROCESSING)) w).

Definition request_output_file (data : gmap string string) : string :=
  generate_output_file (default "" (data !! "input_file"))
    (default "" (data !! "output_format")).

(** A run of the handler on a valid request ends with this status code,
    these writes after the two opening ones, and this status in the
    job's record. *)
Definition ends_with (data : gmap string string) (w : World)
    (resp : Response) (w' : World)
    (status_code : nat) (closing : list db_write) (final : Status) : Prop :=
  code resp = status_code /\
  new_writes w w' = (opening_writes data w ++ closing)%list /\
  final_status (job_oid w) w' = Some final.

(** The upload of a local file goes through: the file exists and the
    transfer raises nothing. *)
Definition upload_succeeds (fs : gmap string string)
    (file_name bucket_name : string) : bool :=
  match fs !! file_name with
  | Some content =>
      match s3_put content bucket_name file_name with
      | None => true
      | Some _ => false
      end
  | None => false
  end.

(** The link the handler accepts: a non-empty URL from the S3 client. *)
Definition presigned (bucket_name object_name : string) : option string :=
  match s3_presign bucket_name object_name 3600 with
  | Ret url => if Py.truthy (Some url) then Some url else None
  | Raise _ => None
  end.

(** The call of [convert_step] the handler makes for a request. *)
Definition conversion_of (data : gmap string string) (w : World)
  : outcome bool * World :=
  convert_step (default "" (data !! "input_file")) (request_output_file data)
    (default "" (data !! "output_format")) default_tolerance (started data w).

(** *** Characters of a string *)

(** [c in s]. *)
Fixpoint has_char (c : ascii) (s : string) : bool :=
  match s with
  | EmptyString => false
  | String d r => Ascii.eqb d c || has_char c r
  end.

(** [s.count(c)]. *)
Fixpoint count_char (c : ascii) (s : string) : nat :=
  match s with
  | EmptyString => 0
  | String d r => (if Ascii.eqb d c then 1 else 0) + count_char c r
  end.

(** Some character of [s] is not a dot. *)
Fixpoint has_non_dot (s : string) : bool :=
  match s with
  | EmptyString => false
  | String d r => negb (Ascii.eqb d ".") || has_non_dot r
  end.

Definition newline : ascii := ascii_of_nat 10.

(** Every coordinate and every facet point of the mesh prints without a
    line break. *)
Definition prints_on_one_line (mesh : Mesh) : bool :=
  forallb (fun point =>
             negb (has_char newline (str_float (point_x point)))
             && negb (has_char newline (str_float (point_y point)))
             && negb (has_char newline (str_float (point_z point))))
    (mesh_Points mesh)
  && forallb (fun facet =>
                forallb (fun p => negb (has_char newline (str_facet_point p)))
                  (facet_Points facet))
       (mesh_Facets mesh).

(** *** The ways a valid request ends *)

Inductive handler_path :=
| ConversionFailed
| UploadFailed
| LinkFailed
| LinkUnbound
| Completed (link : string).

(** The path a request takes, by what the conversion, the upload and
    the link generation answer. *)
Definition path_of (data : gmap string string) (w : World) : handler_path :=
  match fst (conversion_of data w) with
  | Ret true =>
      if Py.truthy (data !! "s3_bucket") then
        if upload_succeeds (files (snd (conversion_of data w)))
             (request_output_file data) (default "" (data !! "s3_bucket"))
        then
          match presigned (default "" (data !! "s3_bucket"))
                  (Py.basename (request_output_file data)) with
          | Some link => Completed link
          | None => LinkFailed
          end
        else UploadFailed
      else LinkUnbound
  | _ => ConversionFailed
  end.

(** The last update of a path, and all its updates after PROCESSING. *)
Definition closing_update (p : handler_path) : set_doc :=
  match p with
  | ConversionFailed => SetStatusError FAILED "Conversion failed"
  | UploadFailed => SetStatusError FAILED "S3 upload failed"
  | LinkFailed => SetStatusError FAILED "Failed to generate S3 download link"
  | LinkUnbound => SetStatusError FAILED (str_exn unbound_s3_download_link)
  | Completed link => SetStatusLink COMPLETED (Some link)
  end.

Definition path_updates (p : handler_path) : list set_doc :=
  match p with
  | ConversionFailed => [closing_update p]
  | _ => [SetStatus UPLOADING; closing_update p]
  end.

(** The response of a path. *)
Definition path_response (data : gmap string string) (w : World)
    (p : handler_path) : Response :=
  let conversion_id := JString (str_oid (job_oid w)) in
  match p with
  | ConversionFailed =>
      {| body := jsonify [("error", JString "Conversion failed");
                          ("conversion_id", conversion_id)];
         code := 500 |}
  | UploadFailed =>
      {| body := jsonify [("error", JString "S3 upload failed");
                          ("conversion_id", conversion_id)];
         code := 500 |}
  | LinkFailed =>
      {| body := jsonify [("error", JString "Failed to generate S3 download link");
                          ("conversion_id", conversion_id)];
         code := 500 |}
  | LinkUnbound =>
      {| body := jsonify [("error", JString (str_exn unbound_s3_download_link))];
         code := 500 |}
  | Completed link =>
      {| body := jsonify [("message", JString "File converted and uploaded successfully");
                          ("output_file", JString (request_output_file data));
                          ("conversion_id", conversion_id);
                          ("s3_download_link", JString link)];
         code := 200 |}
  end.

(** The S3 calls of a path. *)
Definition path_s3_calls (data : gmap string string) (p : handler_path) : list call :=
  let output_file := request_output_file data in
  let bucket := default "" (data !! "s3_bucket") in
  match p with
  | ConversionFailed | LinkUnbound => []
  | UploadFailed => [CallS3Upload output_file bucket output_file]
  | LinkFailed | Completed _ =>
      [ CallS3Upload output_file bucket output_file;
        CallS3Presign bucket (Py.basename output_file) 3600 ]
  end.

(** The record of a request's job after a list of updates. *)
Definition updated_job (data : gmap string string) (w : World)
    (updates : list set_doc) : Job :=
  foldl (fun job u => apply_set u job) (job_record data w) updates.

End Model.

(** ** A concrete kernel and world, to run the model on *)

Module Demo.

(** Floats are carried as their printed text; facet points are vertex
    indices; a shape is the text it was read from. *)
Definition data : KernelData := {|
  float := string;
  str_float := fun t => t;
  default_tolerance := "0.1";
  FacetPoint := nat;
  str_facet_point := Py.str_nat;
  Shape := string
|}.
#[local] Existing Instance data.

Definition triangle : Mesh :=
  {| mesh_Points :=
       [ {| point_x := "0.0"; point_y := "0.0"; point_z := "0.0" |};
         {| point_x := "1.0"; point_y := "0.0"; point_z := "0.0" |};
         {| point_x := "0.0"; point_y := "1.0"; point_z := "0.0" |} ];
     mesh_Facets := [ {| facet_Points := [0; 1; 2] |} ] |}.

Definition kernel_error (msg : string) : exn := Exn OtherException msg.

Definition read_text (fs : gmap string string) (path : string) : outcome string :=
  match fs !! path with
  | Some text => Ret text
  | None => Raise (kernel_error "cannot read file")
  end.

Definition write_text (text path : string) (fs : gmap string string)
  : outcome unit * gmap string string :=
  (Ret tt, <[path := text]> fs).

(** A kernel that reads every file that exists, writes every export,
    and tessellates every shape to [triangle]; a disk where the
    directory [ro/] and the file [locked.off] refuse writes; an S3
    client with credentials. *)
Definition env : Env := {|
  writable := fun path =>
    negb (String.prefix "ro/" path) && negb (String.eqb path "locked.off");
  unique_document_name := fun label _ => label;
  Mesh_read := fun fs path =>
    match fs !! path with
    | Some _ => Ret triangle
    | None => Raise (kernel_error "cannot read mesh")
    end;
  Shape_makeShapeFromMesh := fun _ _ => Ret "shape-from-mesh";
  Shape_read := read_text;
  Shape_exportStep := fun shape => write_text shape;
  Shape_exportIges := fun shape => write_text shape;
  Shape_exportBrep := fun shape => write_text shape;
  Shape_tessellate := fun _ _ => Ret triangle;
  Mesh_write := fun _ => write_text "mesh";
  s3_put := fun _ _ _ => None;
  s3_presign := fun bucket key _ => Ret ("https://" +:+ bucket +:+ ".s3/" +:+ key)
|}.
#[local] Existing Instance env.

(** The same, with an S3 client that has no credentials. *)
Definition env_no_credentials : Env := {|
  writable := writable;
  unique_document_name := unique_document_name;
  Mesh_read := Mesh_read;
  Shape_makeShapeFromMesh := Shape_makeShapeFromMesh;
  Shape_read := Shape_read;
  Shape_exportStep := Shape_exportStep;
  Shape_exportIges := Shape_exportIges;
  Shape_exportBrep := Shape_exportBrep;
  Shape_tessellate := Shape_tessellate;
  Mesh_write := Mesh_write;
  s3_put := fun _ _ _ => Some (Exn NoCredentialsError "Unable to locate credentials");
  s3_presign := s3_presign
|}.

(** The same disk and S3 client, with a kernel that raises on every
    call. *)
Definition env_kernel_down : Env := {|
  writable := writable;
  unique_document_name := unique_document_name;
  Mesh_read := fun _ _ => Raise (kernel_error "kernel down");
  Shape_makeShapeFromMesh := fun _ _ => Raise (kernel_error "kernel down");
  Shape_read := fun _ _ => Raise (kernel_error "kernel down");
  Shape_exportStep := fun _ _ fs => (Raise (kernel_error "kernel down"), fs);
  Shape_exportIges := fun _ _ fs => (Raise (kernel_error "kernel down"), fs);
  Shape_exportBrep := fun _ _ fs => (Raise (kernel_error "kernel down"), fs);
  Shape_tessellate := fun _ _ => Raise (kernel_error "kernel down");
  Mesh_write := fun _ _ fs => (Raise (kernel_error "kernel down"), fs);
  s3_put := s3_put;
  s3_presign := s3_presign
|}.

(** A disk that holds [part.step] and [locked.step], no open document,
    an empty collection. *)
Definition world0 : World :=
  {| files := {[ "part.step" := "ISO-10303-21;"; "locked.step" := "ISO-10303-21;" ]};
     disk_free := 4096;
     documents := ∅;
     ActiveDocument := None;
     calls := [];
     collection := ∅;
     db_log := [];
     now := 1700000000;
     stdout := [] |}.

Definition request (fields : list (string * string)) : gmap string string :=
  list_to_map fields.

(** [world0] with the input also under [uploads/], the job of an
    earlier request in the collection and a kernel document left
    active. *)
Definition earlier_job : Job :=
  {| job_s3_bucket := Some "archive";
     job_status := COMPLETED;
     job_organization_id := "org0";
     job_expiryAt := 1699990000;
     job_error := None;
     job_s3_link := Some "https://archive.s3/old.stl" |}.

Definition world1 : World :=
  {| files := <["uploads/part.step" := "ISO-10303-21;"]> (files world0);
     disk_free := disk_free world0;
     documents := {[ "Sketch" ]};
     ActiveDocument := Some "Sketch";
     calls := [];
     collection := {[ 7 := earlier_job ]};
     db_log := [];
     now := now world0;
     stdout := [] |}.

Definition request_with_bucket : gmap string string :=
  request [("input_file", "uploads/part.step"); ("output_format", "STL");
           ("organization_id", "org1"); ("s3_bucket", "bkt")].

Definition request_without_bucket : gmap string string :=
  request [("input_file", "uploads/part.step"); ("output_format", "STL");
           ("organization_id", "org1")].

End Demo.

(** * Properties *)

(** ** Rules for statements *)

Section Rules.

Context {S : Type}.

Lemma bind_returns {A B} (m : M S A) (k : A -> M S B) s b :
  fst (bind m k s) = Ret b ->
  exists a s', m s = (Ret a, s') /\ fst (k a s') = Ret b.
Proof.
  unfold bind. destruct (m s) as [[a | e] s']; simpl; intros H.
  - eauto.
  - discriminate.
Qed.

Lemma bind_fst {A B} (m : M S A) (k : A -> M S B) s a :
  fst (m s) = Ret a -> bind m k s = k a (snd (m s)).
Proof. unfold bind. destruct (m s) as [[a' | e] s']; simpl; congruence. Qed.

Lemma bind_raises {A B} (m : M S A) (k : A -> M S B) s :
  returned (fst (m s)) = false -> returned (fst (bind m k s)) = false.
Proof. unfold bind. destruct (m s) as [[a | e] s']; simpl; congruence. Qed.

(** *** Observations that a statement leaves alone *)

Context {X : Type} (f : S -> X).

Lemma keeps_ret {A} (a : A) : keeps f (ret a).
Proof. intros s. reflexivity. Qed.

Lemma keeps_raise {A} e : keeps f (@raise S A e).
Proof. intros s. reflexivity. Qed.

Lemma keeps_gets {A} (g : S -> A) : keeps f (gets g).
Proof. intros s. reflexivity. Qed.

Lemma keeps_bind {A B} (m : M S A) (k : A -> M S B) :
  keeps f m -> (forall a, keeps f (k a)) -> keeps f (bind m k).
Proof.
  intros Hm Hk s. unfold bind.
  specialize (Hm s). destruct (m s) as [[a | e] s']; simpl in *.
  - rewrite Hk. exact Hm.
  - exact Hm.
Qed.

Lemma keeps_try_except {A} (body : M S A) handler :
  keeps f body -> (forall e, keeps f (handler e)) -> keeps f (try_except body handler).
Proof.
  intros Hb Hh s. unfold try_except.
  specialize (Hb s). destruct (body s) as [[a | e] s']; simpl in *.
  - exact Hb.
  - rewrite Hh. exact Hb.
Qed.

Lemma keeps_try_finally {A} (body : M S A) final :
  keeps f body -> keeps f final -> keeps f (try_finally body final).
Proof.
  intros Hb Hf s. unfold try_finally.
  specialize (Hb s). destruct (body s) as [r s']; simpl in *.
  specialize (Hf s'). destruct (final s') as [[u | e] s'']; simpl in *; congruence.
Qed.

Lemma keeps_for_each {A} (xs : list A) body :
  (forall x, keeps f (body x)) -> keeps f (for_each xs body).
Proof.
  intros Hb. induction xs as [| x rest IH]; simpl.
  - apply keeps_ret.
  - apply keeps_bind; auto.
Qed.

(** *** Statements that always return *)

Lemma never_raises_ret {A} (a : A) : never_raises (@ret S A a).
Proof. intros s. reflexivity. Qed.

Lemma never_raises_bind {A B} (m : M S A) (k : A -> M S B) :
  never_raises m -> (forall a, never_raises (k a)) -> never_raises (bind m k).
Proof.
  intros Hm Hk s. unfold bind.
  specialize (Hm s). destruct (m s) as [[a | e] s']; simpl in *.
  - apply Hk.
  - discriminate.
Qed.

Lemma never_raises_try_except {A} (body : M S A) handler :
  (forall e, never_raises (handler e)) -> never_raises (try_except body handler).
Proof.
  intros Hh s. unfold try_except.
  destruct (body s) as [[a | e] s']; simpl.
  - reflexivity.
  - apply Hh.
Qed.

Lemma never_raises_modify (g : S -> S) : never_raises (modify g).
Proof. intros s. reflexivity. Qed.

End Rules.

(** ** Tactics *)

(** Inverts a chain of binds that returned: every statement of the
    chain returned, down to the last one. *)
Ltac bind_inversion H k :=
  first
    [ let a := fresh "a" in
      let s := fresh "s" in
      let Hm := fresh "Hrun" in
      let Hk := fresh "Hrest" in
      apply bind_returns in H; destruct H as (a & s & Hm & Hk);
      bind_inversion Hk k
    | k H ].

(** Proves that a statement keeps an observation of the world: the
    rules of [keeps] down to the primitive statements, which are
    unfolded. *)
Ltac frame_prim :=
  let s := fresh "s" in
  intros s;
  unfold print, modify, gets, os_path_exists, open_w, file_write, kernel_call,
    kernel_export, newDocument, closeDocument, s3_upload_file, insert_one,
    update_one, ret, raise;
  simpl; repeat case_match; simpl;
  unfold branches_entered; rewrite ?omap_app; simpl; rewrite ?app_nil_r;
  reflexivity.

Ltac frame :=
  repeat first
    [ apply keeps_ret | apply keeps_raise | apply keeps_gets
    | apply keeps_bind; [| intros ?]
    | apply keeps_try_except; [| intros ?]
    | apply keeps_try_finally
    | apply keeps_for_each; intros ?
    | match goal with |- keeps _ (if ?c then _ else _) => destruct c end
    | match goal with |- keeps _ (match ?c with _ => _ end) => destruct c end
    | solve [frame_prim] ].

(** ** The orchestrator: [convert_step] *)

Section Orchestrator.

Context {KD : KernelData} {E : Env}.

(** The [try] suite ends in [return True]: it returns nothing else. *)
Lemma convert_step_try_true input_file output_file output_format tolerance w b :
  fst (convert_step_try input_file output_file output_format tolerance w) = Ret b ->
  b = true.
Proof.
  unfold convert_step_try. intros H.
  bind_inversion H ltac:(fun Hlast => simpl in Hlast; congruence).
Qed.

Lemma convert_step_finally_returns w :
  fst (convert_step_finally w) = Ret tt.
Proof.
  unfold convert_step_finally, bind, gets. simpl.
  destruct (ActiveDocument w); reflexivity.
Qed.

Lemma convert_step_finally_closes w :
  ActiveDocument (snd (convert_step_finally w)) = None.
Proof.
  unfold convert_step_finally, bind, gets. simpl.
  destruct (ActiveDocument w) as [name |] eqn:Hdoc; simpl.
  - rewrite Hdoc. rewrite bool_decide_eq_true_2; reflexivity.
  - exact Hdoc.
Qed.

Lemma convert_step_unfold input_file output_file output_format tolerance w :
  convert_step input_file output_file output_format tolerance w =
  let (r, w1) := convert_step_try input_file output_file output_format tolerance w in
  match r with
  | Ret b => (Ret b, snd (convert_step_finally w1))
  | Raise e =>
      (Ret false,
       snd (convert_step_finally
              (log_stdout ("Error during conversion: " +:+ str_exn e) w1)))
  end.
Proof.
  unfold convert_step, try_finally, try_except.
  destruct (convert_step_try _ _ _ _ w) as [[b | e] w1]; simpl.
  - pose proof (convert_step_finally_returns w1) as Hf.
    destruct (convert_step_finally w1) as [[[] | e] w2]; simpl in *;
      [reflexivity | discriminate].
  - unfold bind, print, modify, ret; simpl.
    pose proof (convert_step_finally_returns
                  (log_stdout ("Error during conversion: " +:+ str_exn e) w1)) as Hf.
    destruct (convert_step_finally _) as [[[] | e'] w2]; simpl in *;
      [reflexivity | discriminate].
Qed.

Lemma convert_step_returns_bool_aux input_file output_file output_format tolerance w :
  fst (convert_step input_file output_file output_format tolerance w) =
  Ret (returned (fst (convert_step_try input_file output_file output_format tolerance w))).
Proof.
  rewrite convert_step_unfold.
  pose proof (convert_step_try_true input_file output_file output_format tolerance w) as Ht.
  destruct (convert_step_try _ _ _ _ w) as [[b | e] w1]; simpl in *.
  - rewrite (Ht b eq_refl). reflexivity.
  - reflexivity.
Qed.

(** *** Calls and observations of the primitives *)

Lemma in_tuple_elem_of x t : Py.in_tuple x t = bool_decide (x ∈ t).
Proof.
  unfold Py.in_tuple. induction t as [| y t IH].
  - symmetry. apply bool_decide_eq_false_2. set_solver.
  - simpl existsb. rewrite IH. destruct (String.eqb_spec x y) as [-> | Hne]; simpl.
    + symmetry. apply bool_decide_eq_true_2. set_solver.
    + apply bool_decide_ext. set_solver.
Qed.

Lemma assoc_elem_of {A} key (table : list (string * A)) v :
  assoc key table = Some v -> (key, v) ∈ table.
Proof.
  induction table as [| [k x] rest IH]; simpl; [discriminate |].
  destruct (String.eqb_spec key k) as [-> | Hne].
  - intros [= ->]. set_solver.
  - intros H. set_solver.
Qed.

Lemma assoc_None {A} key (table : list (string * A)) :
  assoc key table = None <-> key ∉ table.*1.
Proof.
  induction table as [| [k x] rest IH]; simpl.
  - split; [set_solver | reflexivity].
  - destruct (String.eqb_spec key k) as [-> | Hne].
    + split; [discriminate | set_solver].
    + rewrite IH. set_solver.
Qed.

(** The dispatch chain of lines 118-137 is the table lookup. *)
Lemma export_shape_dispatch shape output_file output_format tolerance :
  export_shape shape output_file output_format tolerance =
  match resolve output_format with
  | Some op => run_export_op op shape output_file tolerance
  | None => raise (unsupported_format output_format)
  end.
Proof.
  unfold export_shape, resolve, export_table, Py.in_tuple. simpl existsb. simpl assoc.
  repeat (match goal with
          | |- context [String.eqb ?a ?b] => destruct (String.eqb a b)
          end; simpl; try reflexivity).
Qed.

Lemma resolve_supported output_format :
  is_Some (resolve output_format) <-> Py.lower output_format ∈ supported_tokens.
Proof.
  unfold resolve, supported_tokens.
  pose proof (assoc_None (Py.lower output_format) export_table) as Hn.
  destruct (assoc (Py.lower output_format) export_table) as [op |] eqn:Ha.
  - split; [intros _ | eauto].
    apply assoc_elem_of in Ha. apply list_elem_of_fmap. exists (Py.lower output_format, op).
    split; [reflexivity | exact Ha].
  - split; [intros [? ?]; discriminate |].
    intros Hin. apply Hn in Hin; [contradiction | reflexivity].
Qed.

(** No token of the table names two operations: the entry of a token
    is the one the lookup finds. *)
Lemma export_table_assoc token op :
  (token, op) ∈ export_table -> assoc token export_table = Some op.
Proof.
  unfold export_table. intros H.
  repeat (apply elem_of_cons in H;
          destruct H as [H | H]; [injection H as -> ->; reflexivity |]).
  apply elem_of_nil in H. contradiction.
Qed.

Lemma unsupported_is_false input_file output_file output_format tolerance w :
  resolve output_format = None ->
  fst (convert_step input_file output_file output_format tolerance w) = Ret false.
Proof.
  intros Hres. rewrite convert_step_returns_bool_aux.
  destruct (fst (convert_step_try _ _ _ _ w)) as [b | e] eqn:Hrun; [| reflexivity].
  exfalso. unfold convert_step_try in Hrun.
  bind_inversion Hrun ltac:(fun _ => idtac).
  match goal with
  | H : export_shape _ _ _ _ _ = _ |- _ =>
      rewrite export_shape_dispatch, Hres in H; discriminate H
  end.
Qed.

(** C5.  A token that, lowercased, is one of the ten accepted ones
    names exactly one operation of the dispatch table, and
    [export_shape] runs that operation and nothing else.  For every
    other token [export_shape] raises the unsupported-format
    [ValueError] without touching the world, and [convert_step]
    returns [False]. *)
Theorem dispatch_resolves_one_export output_format :
  (Py.lower output_format ∈ supported_tokens ->
   exists op,
     (forall op', (Py.lower output_format, op') ∈ export_table <-> op' = op) /\
     (forall shape output_file tolerance,
        export_shape shape output_file output_format tolerance =
        run_export_op op shape output_file tolerance))
  /\
  (Py.lower output_format ∉ supported_tokens ->
   (forall shape output_file tolerance w,
      export_shape shape output_file output_format tolerance w =
      (Raise (unsupported_format output_format), w)) /\
   (forall input_file output_file tolerance w,
      fst (convert_step input_file output_file output_format tolerance w) = Ret false)).
Proof.
  split.
  - intros Hin. apply resolve_supported in Hin. destruct Hin as [op Hop].
    exists op. split.
    + intros op'. split.
      * intros Hin'. apply export_table_assoc in Hin'.
        unfold resolve in Hop. congruence.
      * intros ->. apply assoc_elem_of. exact Hop.
    + intros shape output_file tolerance.
      rewrite export_shape_dispatch, Hop. reflexivity.
  - intros Hout.
    assert (resolve output_format = None) as Hres.
    { destruct (resolve output_format) as [op |] eqn:Hop; [| reflexivity].
      exfalso. apply Hout. apply resolve_supported. eauto. }
    split.
    + intros shape output_file tolerance w.
      rewrite export_shape_dispatch, Hres. reflexivity.
    + intros. apply unsupported_is_false. exact Hres.
Qed.

(** *** Which loader runs *)

Lemma load_shape_branch input_file tolerance w :
  branches_entered (calls (snd (load_shape input_file tolerance w))) =
  (branches_entered (calls w) ++ [classify input_file])%list.
Proof.
  unfold load_shape, classify. rewrite in_tuple_elem_of.
  change [".obj"; ".stl"; ".ply"; ".off"] with mesh_extensions.
  destruct (bool_decide _).
  - unfold bind, print, modify, kernel_call, ret. simpl.
    destruct (Mesh_read _ _) as [mesh | e]; simpl.
    + destruct (Shape_makeShapeFromMesh _ _) as [shape | e]; simpl;
        unfold branches_entered; rewrite !omap_app; simpl;
        rewrite ?app_nil_r; reflexivity.
    + unfold branches_entered. rewrite omap_app. reflexivity.
  - unfold bind, print, modify, kernel_call, ret. simpl.
    destruct (Shape_read _ _) as [shape | e]; simpl;
      unfold branches_entered; rewrite omap_app; reflexivity.
Qed.

Lemma export_shape_keeps_branches shape output_file output_format tolerance :
  keeps (fun w => branches_entered (calls w))
    (export_shape shape output_file output_format tolerance).
Proof.
  rewrite export_shape_dispatch.
  destruct (resolve output_format) as [op |]; [| frame].
  destruct op; unfold run_export_op, tessellate_then; frame.
Qed.

Lemma convert_step_finally_keeps_branches :
  keeps (fun w => branches_entered (calls w)) convert_step_finally.
Proof. unfold convert_step_finally. frame. Qed.

Lemma convert_step_try_branches input_file output_file output_format tolerance w :
  branches_entered
    (calls (snd (convert_step_try input_file output_file output_format tolerance w))) =
  (branches_entered (calls w) ++
   (if bool_decide (is_Some (files w !! input_file))
    then [classify input_file] else []))%list.
Proof.
  unfold convert_step_try. cbn -[load_shape export_shape String.append].
  destruct (bool_decide (is_Some (files w !! input_file)));
    cbn -[load_shape export_shape String.append];
    [| rewrite app_nil_r; reflexivity ].
  assert (forall w0,
             branches_entered (calls w0) = branches_entered (calls w) ->
             branches_entered
               (calls
                  (snd ((shape <- load_shape input_file tolerance ;;
                         print ("Exporting to " +:+ output_format +:+ "...") ;;
                         export_shape shape output_file output_format tolerance ;;
                         print ("File converted successfully: " +:+ output_file) ;;
                         ret true) w0))) =
             (branches_entered (calls w) ++ [classify input_file])%list) as Hrest.
  { intros w0 Hinit.
    pose proof (load_shape_branch input_file tolerance w0) as Hload.
    rewrite Hinit in Hload. unfold bind at 1.
    destruct (load_shape _ _ _) as [[shape | e] w2]; simpl in Hload; [| exact Hload].
    cbn -[export_shape String.append]. unfold bind at 1.
    match goal with
    | |- context [export_shape ?s ?o ?f ?t ?w1] =>
        pose proof (export_shape_keeps_branches s o f t w1) as Hexp
    end.
    simpl in Hexp.
    destruct (export_shape _ _ _ _ _) as [[[] | e] w3]; simpl in *;
      rewrite Hexp; exact Hload. }
  destruct (ActiveDocument w); cbn -[load_shape export_shape String.append];
    apply Hrest; cbn; [reflexivity |].
  unfold branches_entered. rewrite omap_app. simpl. rewrite app_nil_r. reflexivity.
Qed.

(** C6.  The input classification is total.  [load_shape], the [if] of
    lines 97-114, enters exactly one branch, and it is the
    mesh-to-shape branch precisely for the four mesh extensions
    (compared in lower case) and the direct-load branch for every
    other path.  In [convert_step] that [if] is reached once the input
    exists (line 88), and the loader that runs is the one of the
    classified branch, once. *)
Theorem input_classification_total input_file tolerance w :
  (classify input_file = MeshToShape <->
   Py.lower (snd (Py.splitext input_file)) ∈ [".obj"; ".stl"; ".ply"; ".off"])
  /\
  (classify input_file = DirectLoad <->
   Py.lower (snd (Py.splitext input_file)) ∉ [".obj"; ".stl"; ".ply"; ".off"])
  /\
  branches_entered (calls (snd (load_shape input_file tolerance w))) =
    (branches_entered (calls w) ++ [classify input_file])%list
  /\
  forall output_file output_format,
    branches_entered
      (calls (snd (convert_step input_file output_file output_format tolerance w))) =
    (branches_entered (calls w) ++
     (if bool_decide (is_Some (files w !! input_file))
      then [classify input_file] else []))%list.
Proof.
  split; [| split; [| split]].
  - unfold classify, mesh_extensions. case_bool_decide; split; intros; done.
  - unfold classify, mesh_extensions. case_bool_decide; split; intros; done.
  - apply load_shape_branch.
  - intros output_file output_format.
    rewrite convert_step_unfold.
    pose proof (convert_step_try_branches input_file output_file output_format tolerance w)
      as Htry.
    destruct (convert_step_try _ _ _ _ w) as [[b | e] w1]; simpl in *.
    + rewrite convert_step_finally_keeps_branches. exact Htry.
    + rewrite convert_step_finally_keeps_branches. exact Htry.
Qed.

(** *** Every exception of the [try] suite becomes [False] *)

Lemma load_shape_result input_file tolerance w :
  fst (load_shape input_file tolerance w) = loaded (files w) input_file tolerance.
Proof.
  unfold load_shape, loaded, classify. rewrite in_tuple_elem_of.
  change [".obj"; ".stl"; ".ply"; ".off"] with mesh_extensions.
  destruct (bool_decide _); unfold bind, print, modify, kernel_call, ret; simpl.
  - destruct (Mesh_read _ _) as [mesh | e]; simpl; [| reflexivity].
    destruct (Shape_makeShapeFromMesh _ _); reflexivity.
  - destruct (Shape_read _ _); reflexivity.
Qed.

Lemma load_shape_keeps_files input_file tolerance :
  keeps files (load_shape input_file tolerance).
Proof. unfold load_shape. frame. Qed.

(** The statements of the [try] suite before the load leave the disk
    alone and, when the input exists, reach the load. *)
Lemma convert_step_try_from_load input_file output_file output_format tolerance w :
  is_Some (files w !! input_file) ->
  exists w0,
    files w0 = files w /\
    convert_step_try input_file output_file output_format tolerance w =
    (shape <- load_shape input_file tolerance ;;
     print ("Exporting to " +:+ output_format +:+ "...") ;;
     export_shape shape output_file output_format tolerance ;;
     print ("File converted successfully: " +:+ output_file) ;;
     ret true) w0.
Proof.
  intros Hfound. unfold convert_step_try.
  cbn -[load_shape export_shape String.append].
  rewrite (bool_decide_eq_true_2 _ Hfound).
  cbn -[load_shape export_shape String.append].
  destruct (ActiveDocument w); cbn -[load_shape export_shape String.append];
    eexists; (split; [| reflexivity]); reflexivity.
Qed.

Lemma convert_step_missing_input_false input_file output_file output_format tolerance w :
  files w !! input_file = None ->
  fst (convert_step input_file output_file output_format tolerance w) = Ret false.
Proof.
  intros Hmissing. rewrite convert_step_returns_bool_aux. f_equal.
  unfold convert_step_try. cbn -[load_shape export_shape String.append].
  rewrite bool_decide_eq_false_2; [reflexivity |].
  rewrite Hmissing. intros [? ?]. discriminate.
Qed.

Lemma convert_step_load_error input_file output_file output_format tolerance w e :
  is_Some (files w !! input_file) ->
  loaded (files w) input_file tolerance = Raise e ->
  fst (convert_step input_file output_file output_format tolerance w) = Ret false.
Proof.
  intros Hfound Hload. rewrite convert_step_returns_bool_aux. f_equal.
  destruct (convert_step_try_from_load input_file output_file output_format tolerance w Hfound)
    as (w0 & Hfiles & ->).
  apply bind_raises. rewrite load_shape_result, Hfiles, Hload. reflexivity.
Qed.

Lemma convert_step_export_error input_file output_file output_format tolerance w shape :
  is_Some (files w !! input_file) ->
  loaded (files w) input_file tolerance = Ret shape ->
  (forall w', files w' = files w ->
     returned (fst (export_shape shape output_file output_format tolerance w')) = false) ->
  fst (convert_step input_file output_file output_format tolerance w) = Ret false.
Proof.
  intros Hfound Hload Hexport. rewrite convert_step_returns_bool_aux. f_equal.
  destruct (convert_step_try_from_load input_file output_file output_format tolerance w Hfound)
    as (w0 & Hfiles & ->).
  rewrite (bind_fst _ _ _ shape) by (rewrite load_shape_result, Hfiles; exact Hload).
  cbn -[load_shape export_shape String.append].
  apply bind_raises. apply Hexport.
  cbn. rewrite load_shape_keeps_files. exact Hfiles.
Qed.

(** C3.  [convert_step] returns a boolean on every input and in every
    world, whatever the kernel answers: [True] when its [try] suite ran
    to the end, [False] when anything in it raised.  In particular it
    returns [False] when the input is missing, when the load or the
    mesh-to-shape reconstruction raises, and when the export raises.
    No exception reaches the caller. *)
Theorem convert_step_returns_bool input_file output_file output_format tolerance w :
  fst (convert_step input_file output_file output_format tolerance w) =
    Ret (returned (fst (convert_step_try input_file output_file output_format tolerance w)))
  /\
  (files w !! input_file = None ->
   fst (convert_step input_file output_file output_format tolerance w) = Ret false)
  /\
  (forall e,
     is_Some (files w !! input_file) ->
     loaded (files w) input_file tolerance = Raise e ->
     fst (convert_step input_file output_file output_format tolerance w) = Ret false)
  /\
  (forall shape,
     is_Some (files w !! input_file) ->
     loaded (files w) input_file tolerance = Ret shape ->
     (forall w', files w' = files w ->
        returned (fst (export_shape shape output_file output_format tolerance w')) = false) ->
     fst (convert_step input_file output_file output_format tolerance w) = Ret false).
Proof.
  split; [apply convert_step_returns_bool_aux |].
  split; [apply convert_step_missing_input_false |].
  split.
  - intros e. apply convert_step_load_error.
  - intros shape. apply convert_step_export_error.
Qed.

(** *** The kernel document *)

Lemma export_shape_keeps_documents shape output_file output_format tolerance :
  keeps doc_state (export_shape shape output_file output_format tolerance).
Proof.
  rewrite export_shape_dispatch.
  destruct (resolve output_format) as [op |]; [| frame].
  destruct op; unfold run_export_op, tessellate_then; frame.
Qed.

(** The [try] suite opens at most one document, and only when none is
    active; the one it opens is then the active one. *)
Lemma convert_step_try_documents input_file output_file output_format tolerance w :
  let w1 := snd (convert_step_try input_file output_file output_format tolerance w) in
  doc_state w1 = doc_state w \/
  (ActiveDocument w = None /\
   exists name, ActiveDocument w1 = Some name /\ documents w1 = {[name]} ∪ documents w).
Proof.
  cbv zeta.
  assert (keeps doc_state
            (shape <- load_shape input_file tolerance ;;
             print ("Exporting to " +:+ output_format +:+ "...") ;;
             export_shape shape output_file output_format tolerance ;;
             print ("File converted successfully: " +:+ output_file) ;;
             ret true)) as Hrest.
  { unfold load_shape.
    repeat first
      [ apply export_shape_keeps_documents
      | apply keeps_ret | apply keeps_bind; [| intros ?]
      | match goal with |- keeps _ (if ?c then _ else _) => destruct c end
      | solve [frame_prim] ]. }
  unfold convert_step_try. cbn -[load_shape export_shape String.append].
  destruct (bool_decide (is_Some (files w !! input_file)));
    cbn -[load_shape export_shape String.append]; [| left; reflexivity].
  destruct (ActiveDocument w) as [name |] eqn:Hdoc;
    cbn -[load_shape export_shape String.append].
  - left. rewrite Hrest. unfold doc_state. simpl. rewrite Hdoc. reflexivity.
  - right. split; [reflexivity |].
    exists (unique_document_name "ConversionDocument" (documents w)).
    match goal with
    | |- context [snd (?m ?w0)] => pose proof (Hrest w0) as Hkeep
    end.
    unfold doc_state in Hkeep. simpl in Hkeep. injection Hkeep as Hactive Hdocs.
    split; assumption.
Qed.

Lemma convert_step_finally_documents w :
  documents (snd (convert_step_finally w)) =
  match ActiveDocument w with
  | Some name => documents w ∖ {[name]}
  | None => documents w
  end.
Proof.
  unfold convert_step_finally, bind, gets. simpl.
  destruct (ActiveDocument w); reflexivity.
Qed.

(** C4.  After every call of [convert_step], with either result, the
    kernel has no active document: the [finally] suite closes the one
    that is active on every exit path.  The call leaves no document
    open that was not open before, and a document that was active when
    it started is closed. *)
Theorem convert_step_closes_document input_file output_file output_format tolerance w :
  let w' := snd (convert_step input_file output_file output_format tolerance w) in
  ActiveDocument w' = None /\
  documents w' ⊆ documents w /\
  (forall name, ActiveDocument w = Some name -> name ∉ documents w').
Proof.
  cbv zeta. rewrite convert_step_unfold.
  pose proof (convert_step_try_documents input_file output_file output_format tolerance w)
    as Hdocs.
  cbv zeta in Hdocs.
  destruct (convert_step_try _ _ _ _ w) as [r w1]. simpl in Hdocs.
  assert (exists w2,
            snd (match r with
                 | Ret b => (Ret b, snd (convert_step_finally w1))
                 | Raise e =>
                     (Ret false,
                      snd (convert_step_finally
                             (log_stdout ("Error during conversion: " +:+ str_exn e) w1)))
                 end) = snd (convert_step_finally w2) /\
            ActiveDocument w2 = ActiveDocument w1 /\ documents w2 = documents w1)
    as (w2 & -> & Hactive & Hopen).
  { destruct r; eexists; (split; [reflexivity |]); split; reflexivity. }
  split; [apply convert_step_finally_closes |].
  rewrite convert_step_finally_documents, Hactive, Hopen.
  destruct Hdocs as [Hsame | (Hnone & name & Hname & Hnew)].
  - unfold doc_state in Hsame. injection Hsame as Ha Hd. rewrite Ha, Hd.
    destruct (ActiveDocument w) as [name |].
    + split; [set_solver |]. intros ? [= <-]. set_solver.
    + split; [set_solver |]. intros ? [=].
  - rewrite Hname, Hnew, Hnone. split; [set_solver |]. intros ? [=].
Qed.

End Orchestrator.

(** ** The [.off] writer *)

Section OffWriter.

Context {KD : KernelData} {E : Env}.

Lemma str_app_cons x a b : String x a +:+ b = String x (a +:+ b).
Proof. reflexivity. Qed.

Lemma str_app_assoc a b c : (a +:+ b) +:+ c = a +:+ (b +:+ c).
Proof.
  induction a as [| x a IH]; [reflexivity |].
  rewrite !str_app_cons, IH. reflexivity.
Qed.

Lemma str_app_nil_r a : a +:+ "" = a.
Proof.
  induction a as [| x a IH]; [reflexivity |].
  rewrite str_app_cons, IH. reflexivity.
Qed.

Lemma str_length_app a b :
  String.length (a +:+ b) = String.length a + String.length b.
Proof.
  induction a as [| x a IH]; [reflexivity |].
  rewrite str_app_cons. simpl. rewrite IH. reflexivity.
Qed.

Lemma unlines_app l1 l2 : unlines (l1 ++ l2) = unlines l1 +:+ unlines l2.
Proof.
  induction l1 as [| l l1 IH]; simpl; [reflexivity |].
  rewrite IH, !str_app_assoc. reflexivity.
Qed.

Lemma concat_texts_app t1 t2 :
  concat_texts (t1 ++ t2) = concat_texts t1 +:+ concat_texts t2.
Proof.
  unfold concat_texts. induction t1 as [| t t1 IH]; simpl; [reflexivity |].
  rewrite IH, str_app_assoc. reflexivity.
Qed.

Lemma concat_texts_lines {A} (line text : A -> string) xs :
  (forall x, text x = line x +:+ Py.nl) ->
  concat_texts (map text xs) = unlines (map line xs).
Proof.
  intros H. unfold concat_texts. induction xs as [| x xs IH]; simpl; [reflexivity |].
  rewrite IH, H, str_app_assoc. reflexivity.
Qed.

Lemma off_vertex_text_line point :
  off_vertex_text point = off_vertex_line point +:+ Py.nl.
Proof.
  unfold off_vertex_text, off_vertex_line. simpl Py.join.
  rewrite !str_app_assoc. reflexivity.
Qed.

Lemma off_face_text_line facet :
  off_face_text facet = off_face_line facet +:+ Py.nl.
Proof.
  unfold off_face_text, off_face_line. rewrite !str_app_assoc. reflexivity.
Qed.

(** What the writer sends to [f.write], put end to end, is the file
    the format describes. *)
Lemma off_texts_lines mesh : concat_texts (off_texts mesh) = unlines (off_lines mesh).
Proof.
  unfold off_texts, off_lines.
  rewrite !concat_texts_app, !unlines_app.
  rewrite (concat_texts_lines off_vertex_line off_vertex_text _ off_vertex_text_line).
  rewrite (concat_texts_lines off_face_line off_face_text _ off_face_text_line).
  f_equal. unfold concat_texts. simpl.
  rewrite !str_app_assoc, ?str_app_nil_r. reflexivity.
Qed.

Lemma for_each_app {S A} (xs ys : list A) (body : A -> M S unit) s :
  for_each (xs ++ ys) body s = bind (for_each xs body) (fun _ => for_each ys body) s.
Proof.
  revert s. induction xs as [| x xs IH]; intros s; simpl.
  - reflexivity.
  - unfold bind in *. destruct (body x s) as [[[] | e] s']; [| reflexivity].
    apply IH.
Qed.

Lemma for_each_map {S A B} (g : A -> B) (xs : list A) (body : B -> M S unit) s :
  for_each (map g xs) body s = for_each xs (fun x => body (g x)) s.
Proof.
  revert s. induction xs as [| x xs IH]; intros s; simpl.
  - reflexivity.
  - unfold bind. destruct (body (g x) s) as [[[] | e] s']; [apply IH | reflexivity].
Qed.

(** The four writing statements of the [with] suite are one loop over
    [off_texts]. *)
Lemma off_writes_for_each mesh output_file w :
  (file_write output_file ("OFF" +:+ Py.nl) ;;
   file_write output_file
     (Py.str_nat (length (mesh_Points mesh)) +:+ " "
        +:+ Py.str_nat (length (mesh_Facets mesh)) +:+ " 0" +:+ Py.nl) ;;
   for_each (mesh_Points mesh)
     (fun point => file_write output_file (off_vertex_text point)) ;;
   for_each (mesh_Facets mesh)
     (fun facet => file_write output_file (off_face_text facet))) w =
  for_each (off_texts mesh) (file_write output_file) w.
Proof.
  unfold off_texts. simpl for_each.
  unfold bind at 1 4. destruct (file_write _ _ w) as [[[] | e] w1]; [| reflexivity].
  unfold bind at 1 3. destruct (file_write _ _ w1) as [[[] | e] w2]; [| reflexivity].
  rewrite for_each_app. unfold bind at 1 2.
  rewrite for_each_map.
  destruct (for_each (mesh_Points mesh) _ w2) as [[[] | e] w3]; [| reflexivity].
  rewrite for_each_map. reflexivity.
Qed.

(** Writing a list of texts to an open file with enough room appends
    them, in order, and touches no other file. *)
Lemma for_each_file_write texts path w content :
  files w !! path = Some content ->
  String.length (concat_texts texts) <= disk_free w ->
  exists w',
    for_each texts (file_write path) w = (Ret tt, w') /\
    files w' = <[path := content +:+ concat_texts texts]> (files w) /\
    stdout w' = stdout w.
Proof.
  revert w content. induction texts as [| text texts IH]; intros w content Hfile Hroom.
  - exists w. simpl. rewrite str_app_nil_r.
    split; [reflexivity |]. split; [| reflexivity].
    symmetry. apply insert_id. exact Hfile.
  - simpl in Hroom. rewrite str_length_app in Hroom.
    simpl for_each. unfold bind, file_write at 1.
    rewrite Hfile. simpl default.
    destruct (String.length text <=? disk_free w)%nat eqn:Hle;
      [| apply Nat.leb_gt in Hle; lia ].
    destruct (IH (set_disk_free (disk_free w - String.length text)
                    (set_files (<[path := content +:+ text]> (files w)) w))
                (content +:+ text)) as (w' & Hrun & Hfiles & Hout).
    { simpl. apply lookup_insert_eq. }
    { simpl. fold (concat_texts texts) in Hroom. lia. }
    exists w'. rewrite Hrun. split; [reflexivity |]. split; [| exact Hout].
    rewrite Hfiles. simpl. rewrite insert_insert_eq.
    fold (concat_texts texts). rewrite str_app_assoc. reflexivity.
Qed.

Lemma export_off_writes mesh output_file w :
  writable output_file = true ->
  String.length (unlines (off_lines mesh)) <= disk_free w ->
  exists w',
    export_off mesh output_file w = (Ret tt, w') /\
    files w' = <[output_file := unlines (off_lines mesh)]> (files w) /\
    stdout w' = (stdout w ++ ["Exported .off file: " +:+ output_file])%list.
Proof.
  intros Hw Hroom. rewrite <- off_texts_lines in *.
  unfold export_off, try_except, export_off_try, with_open_w.
  unfold bind at 1. unfold bind at 1. unfold open_w at 1. rewrite Hw.
  unfold try_finally.
  rewrite (off_writes_for_each mesh output_file
             (set_files (<[output_file := ""]> (files w)) w)).
  destruct (for_each_file_write (off_texts mesh) output_file
              (set_files (<[output_file := ""]> (files w)) w) "")
    as (w1 & Hrun & Hfiles & Hout).
  { simpl. apply lookup_insert_eq. }
  { simpl. exact Hroom. }
  rewrite Hrun. unfold bind, print, modify, ret. simpl.
  eexists. split; [reflexivity |]. simpl. rewrite Hfiles, Hout. simpl.
  rewrite insert_insert_eq. split; reflexivity.
Qed.


End OffWriter.

(** ** The publisher and the request handler *)

Section Handler.

Context {KD : KernelData} {E : Env}.

(** Neither the orchestrator nor the publisher writes to the document
    store. *)
Lemma convert_step_keeps_ledger input_file output_file output_format tolerance :
  keeps ledger (convert_step input_file output_file output_format tolerance).
Proof.
  unfold convert_step, convert_step_try, convert_step_finally, load_shape,
    export_shape, export_off, export_off_try, with_open_w.
  frame.
Qed.

Lemma upload_to_s3_keeps_ledger file_name bucket_name object_name :
  keeps ledger (upload_to_s3 file_name bucket_name object_name).
Proof. unfold upload_to_s3. frame. Qed.

Lemma generate_presigned_url_keeps_ledger bucket_name object_name expiration :
  keeps ledger (generate_presigned_url bucket_name object_name expiration).
Proof. unfold generate_presigned_url. frame. Qed.

(** *** The publisher: [upload_to_s3] *)

Lemma upload_to_s3_run file_name bucket_name w :
  calls (snd (upload_to_s3 file_name bucket_name None w)) =
    (calls w ++ [CallS3Upload file_name bucket_name file_name])%list
  /\
  fst (upload_to_s3 file_name bucket_name None w) =
    Ret (match files w !! file_name with
         | None => false
         | Some content =>
             match s3_put content bucket_name file_name with
             | None => true
             | Some _ => false
             end
         end).
Proof.
  unfold upload_to_s3, try_except, bind, s3_upload_file, print, modify, ret.
  destruct (files w !! file_name) as [content |]; simpl.
  - destruct (s3_put content bucket_name file_name) as [e |]; simpl.
    + destruct (exn_kind e); simpl; split; reflexivity.
    + split; reflexivity.
  - split; reflexivity.
Qed.

Lemma upload_to_s3_returns file_name bucket_name object_name :
  never_raises (upload_to_s3 file_name bucket_name object_name).
Proof.
  unfold upload_to_s3. apply never_raises_try_except. intros e.
  destruct (exn_kind e);
    (apply never_raises_bind; [apply never_raises_modify | intros; apply never_raises_ret]).
Qed.

(** *** The handler: [convert] *)

Lemma bind_liftW {A B} (m : M World A) (k : A -> M (Locals * World) B) l w :
  bind (liftW m) k (l, w) =
  match m w with
  | (Ret a, w') => k a (l, w')
  | (Raise e, w') => (Raise e, (l, w'))
  end.
Proof. unfold bind, liftW. simpl. destruct (m w) as [[a | e] w']; reflexivity. Qed.

Lemma convert_step_returns input_file output_file output_format tolerance :
  never_raises (convert_step input_file output_file output_format tolerance).
Proof. intros w. rewrite convert_step_returns_bool_aux. reflexivity. Qed.

Lemma valid_request_check data :
  negb (Py.truthy (data !! "input_file"))
  || negb (Py.truthy (data !! "output_format"))
  || negb (Py.truthy (data !! "organization_id")) = negb (valid_request data).
Proof.
  unfold valid_request.
  destruct (Py.truthy (data !! "input_file")), (Py.truthy (data !! "output_format")),
    (Py.truthy (data !! "organization_id")); reflexivity.
Qed.

Lemma generate_presigned_url_run bucket_name object_name expiration w :
  fst (generate_presigned_url bucket_name object_name expiration w) =
  Ret (match s3_presign bucket_name object_name expiration with
       | Ret url => Some url
       | Raise _ => None
       end).
Proof.
  unfold generate_presigned_url, try_except, bind, kernel_call, print, modify, ret.
  simpl. destruct (s3_presign _ _ _); reflexivity.
Qed.

Lemma upload_to_s3_result file_name bucket_name w :
  fst (upload_to_s3 file_name bucket_name None w) =
  Ret (upload_succeeds (files w) file_name bucket_name).
Proof. apply upload_to_s3_run. Qed.

Lemma new_writes_app w w' extra :
  db_log w' = (db_log w ++ extra)%list -> new_writes w w' = extra.
Proof. intros H. unfold new_writes. rewrite H. apply drop_app_length. Qed.

(** Runs the first statement of a chain, a call [m] lifted into the
    handler's frame, given what [m] returns and that it keeps the
    ledger. *)
Ltac call_step m lem_run lem_keeps r w' Hr Hk :=
  rewrite (bind_liftW m);
  match goal with
  | |- context [match m ?w0 with _ => _ end] =>
      pose proof (lem_run w0) as Hr;
      pose proof (lem_keeps w0) as Hk;
      destruct (m w0) as [[r | ?] w']; simpl in Hr, Hk; [| discriminate Hr]
  end;
  cbv beta;
  unfold ledger in Hk; simpl in Hk.

Ltac close_case :=
  unfold ends_with; split; [reflexivity |]; split;
  [ apply new_writes_app; simpl;
    repeat match goal with H : db_log _ = _ |- _ => rewrite H end;
    rewrite <- ?app_assoc; reflexivity
  | unfold final_status; simpl;
    repeat match goal with H : collection _ = _ |- _ => rewrite H end;
    rewrite !lookup_alter_eq, lookup_insert_eq; reflexivity ].

(** Every run of the handler on a valid request, by what the
    conversion, the upload and the link generation answer. *)
Lemma convert_cases data w :
  valid_request data = true ->
  exists resp w',
    convert data w = (Ret resp, w') /\
    let oid := job_oid w in
    let output_file := request_output_file data in
    let bucket := default "" (data !! "s3_bucket") in
    let uploading := UpdateOne oid (SetStatus UPLOADING) in
    match fst (conversion_of data w) with
    | Ret true =>
        if Py.truthy (data !! "s3_bucket") then
          if upload_succeeds (files (snd (conversion_of data w))) output_file bucket then
            match presigned bucket (Py.basename output_file) with
            | Some link =>
                ends_with data w resp w' 200
                  [uploading; UpdateOne oid (SetStatusLink COMPLETED (Some link))]
                  COMPLETED /\
                body resp =
                  jsonify [("message", JString "File converted and uploaded successfully");
                           ("output_file", JString output_file);
                           ("conversion_id", JString (str_oid oid));
                           ("s3_download_link", JString link)]
            | None =>
                ends_with data w resp w' 500
                  [uploading;
                   UpdateOne oid
                     (SetStatusError FAILED "Failed to generate S3 download link")]
                  FAILED
            end
          else
            ends_with data w resp w' 500
              [uploading; UpdateOne oid (SetStatusError FAILED "S3 upload failed")]
              FAILED /\
            body resp !! "error" = Some (JString "S3 upload failed")
        else
          ends_with data w resp w' 500
            [uploading;
             UpdateOne oid (SetStatusError FAILED (str_exn unbound_s3_download_link))]
            FAILED /\
          body resp = jsonify [("error", JString (str_exn unbound_s3_download_link))]
    | _ =>
        ends_with data w resp w' 500
          [UpdateOne oid (SetStatusError FAILED "Conversion failed")] FAILED
    end.
Proof.
  intros Hvalid. unfold convert, call_frame, try_except, convert_try.
  rewrite valid_request_check, Hvalid. cbn [negb]. cbv iota.
  unfold conversion_of, started, request_output_file, opening_writes, job_record, job_oid.
  set (oid := fresh (dom (collection w))).
  set (input_file := default "" (data !! "input_file")).
  set (output_format := default "" (data !! "output_format")).
  set (output_file := generate_output_file input_file output_format).
  set (bucket := default "" (data !! "s3_bucket")).
  set (record := {| job_s3_bucket := data !! "s3_bucket"; job_status := PENDING;
                    job_organization_id := default "" (data !! "organization_id");
                    job_expiryAt := (now w + 86400)%Z; job_error := None;
                    job_s3_link := None |}).
  cbn -[convert_step upload_to_s3 generate_presigned_url generate_output_file fresh
        String.append jsonify upload_succeeds presigned ends_with].
  fold oid. fold record.
  set (w1 := set_collection _ (UpdateOne oid (SetStatus PROCESSING)) _).
  call_step (convert_step input_file output_file output_format default_tolerance)
    (convert_step_returns input_file output_file output_format default_tolerance)
    (convert_step_keeps_ledger input_file output_file output_format default_tolerance)
    success w2 Hr2 Hk2.
  clear Hr2. injection Hk2 as Hcol2 Hlog2 _.
  destruct success; cbn [negb fst snd]; cbv iota beta.
  2:{ cbn -[String.append jsonify ends_with]. do 2 eexists. split; [reflexivity |].
      close_case. }
  cbn -[upload_to_s3 generate_presigned_url String.append jsonify upload_succeeds
        presigned ends_with].
  destruct (Py.truthy (data !! "s3_bucket")).
  2:{ cbn -[String.append jsonify ends_with]. do 2 eexists. split; [reflexivity |].
      split; [close_case | reflexivity]. }
  fold bucket.
  set (w3 := set_collection _ (UpdateOne oid (SetStatus UPLOADING)) w2).
  call_step (upload_to_s3 output_file bucket None)
    (upload_to_s3_result output_file bucket)
    (upload_to_s3_keeps_ledger output_file bucket None)
    upload_success w4 Hr4 Hk4.
  injection Hr4 as ->. injection Hk4 as Hcol4 Hlog4 _.
  destruct (upload_succeeds (files w2) output_file bucket); cbn [negb]; cbv iota beta.
  2:{ cbn -[String.append jsonify ends_with]. do 2 eexists. split; [reflexivity |].
      split; [close_case | reflexivity]. }
  call_step (generate_presigned_url bucket (Py.basename output_file) 3600)
    (generate_presigned_url_run bucket (Py.basename output_file) 3600)
    (generate_presigned_url_keeps_ledger bucket (Py.basename output_file) 3600)
    link w5 Hr5 Hk5.
  injection Hr5 as ->. injection Hk5 as Hcol5 Hlog5 _.
  unfold presigned.
  destruct (s3_presign bucket (Py.basename output_file) 3600) as [url | e].
  - cbn -[String.append jsonify Py.truthy ends_with].
    destruct (Py.truthy (Some url)); cbn [negb]; cbv iota beta;
      cbn -[String.append jsonify ends_with]; do 2 eexists;
      (split; [reflexivity |]).
    + split; [close_case | reflexivity].
    + close_case.
  - cbn -[String.append jsonify ends_with]. do 2 eexists. split; [reflexivity |].
    close_case.
Qed.

Lemma convert_invalid data w :
  valid_request data = false ->
  convert data w =
  (Ret {| body := jsonify [("error", JString "Missing required parameters: input_file, output_format, organization_id")];
          code := 400 |}, w).
Proof.
  intros Hvalid. unfold convert, call_frame, try_except, convert_try.
  rewrite valid_request_check, Hvalid. reflexivity.
Qed.

(** C9.  A request that lacks one of [input_file], [output_format] and
    [organization_id] is answered with status 400 and an error
    message, and the handler returns in the world it was called in:
    no record is inserted and nothing is sent to the document store. *)
Theorem convert_missing_parameter data w :
  data !! "input_file" = None \/ data !! "output_format" = None
    \/ data !! "organization_id" = None ->
  exists resp,
    convert data w = (Ret resp, w) /\
    code resp = 400 /\
    body resp !! "error" =
      Some (JString "Missing required parameters: input_file, output_format, organization_id") /\
    new_writes w (snd (convert data w)) = [] /\
    collection (snd (convert data w)) = collection w.
Proof.
  intros Hmissing.
  assert (valid_request data = false) as Hvalid.
  { unfold valid_request.
    destruct Hmissing as [-> | [-> | ->]]; simpl;
      rewrite ?andb_false_r; reflexivity. }
  rewrite (convert_invalid data w Hvalid). eexists. split; [reflexivity |].
  split; [reflexivity |]. split; [reflexivity |]. split; [| reflexivity].
  unfold new_writes. simpl. apply drop_all.
Qed.

(** C7.  When a request that supplies a bucket is answered with status
    200, the writes it sent to the document store are the insertion of
    a new record with status PENDING followed by three updates of that
    same record, to PROCESSING, to UPLOADING and to COMPLETED: the
    statuses written are exactly these four, in this order. *)
Theorem successful_upload_lifecycle data w resp :
  Py.truthy (data !! "s3_bucket") = true ->
  fst (convert data w) = Ret resp ->
  code resp = 200 ->
  collection w !! job_oid w = None /\
  (exists link,
     new_writes w (snd (convert data w)) =
       [ InsertOne (job_oid w) (job_record data w);
         UpdateOne (job_oid w) (SetStatus PROCESSING);
         UpdateOne (job_oid w) (SetStatus UPLOADING);
         UpdateOne (job_oid w) (SetStatusLink COMPLETED (Some link)) ]) /\
  statuses_written (job_oid w) (new_writes w (snd (convert data w))) =
    [PENDING; PROCESSING; UPLOADING; COMPLETED] /\
  final_status (job_oid w) (snd (convert data w)) = Some COMPLETED.
Proof.
  intros Hbucket Hrun Hcode.
  split.
  { apply not_elem_of_dom. apply is_fresh. }
  destruct (valid_request data) eqn:Hvalid.
  2:{ rewrite (convert_invalid data w Hvalid) in Hrun. injection Hrun as <-.
      discriminate Hcode. }
  destruct (convert_cases data w Hvalid) as (resp' & w' & Hconv & Hcase).
  rewrite Hconv in Hrun |- *. injection Hrun as ->. simpl snd.
  cbv zeta in Hcase. rewrite Hbucket in Hcase.
  assert (forall c closing st, ends_with data w resp w' c closing st -> c = 200) as Hcode'.
  { intros c closing st (Hc & _). congruence. }
  destruct (fst (conversion_of data w)) as [[|] | e];
    try (apply Hcode' in Hcase; discriminate Hcase).
  destruct (upload_succeeds _ _ _).
  2:{ destruct Hcase as [Hcase _]. apply Hcode' in Hcase. discriminate Hcase. }
  destruct (presigned _ _) as [link |];
    [| apply Hcode' in Hcase; discriminate Hcase].
  destruct Hcase as [(_ & Hwrites & Hfinal) _].
  split; [exists link; exact Hwrites |].
  split; [| exact Hfinal].
  rewrite Hwrites. unfold opening_writes. simpl.
  rewrite Nat.eqb_refl. reflexivity.
Qed.

(** Without a bucket the handler never answers 200: when the
    conversion succeeds, the read of the unassigned [s3_download_link]
    at line 280 raises, the [except] suite marks the job FAILED and the
    answer is 500. *)
Lemma convert_without_bucket data w :
  valid_request data = true ->
  Py.truthy (data !! "s3_bucket") = false ->
  fst (conversion_of data w) = Ret true ->
  exists resp,
    fst (convert data w) = Ret resp /\
    code resp = 500 /\
    body resp = jsonify [("error", JString (str_exn unbound_s3_download_link))] /\
    final_status (job_oid w) (snd (convert data w)) = Some FAILED.
Proof.
  intros Hvalid Hbucket Hconv.
  destruct (convert_cases data w Hvalid) as (resp & w' & Hrun & Hcase).
  cbv zeta in Hcase. rewrite Hconv, Hbucket in Hcase.
  destruct Hcase as [(Hcode & _ & Hfinal) Hbody].
  exists resp. rewrite Hrun. auto.
Qed.

(** *** A failed [.off] write goes unnoticed *)

Lemma export_off_returns mesh output_file w :
  fst (export_off mesh output_file w) = Ret tt.
Proof.
  unfold export_off, try_except.
  destruct (export_off_try mesh output_file w) as [[[] | e] w']; reflexivity.
Qed.







(** C8, as the code has it.  With no explicit object key,
    [upload_to_s3] sends the file under its path exactly as given,
    directories included, which is the base name when the path has no
    directory separator; it never raises, and it returns [True]
    exactly when the local file exists and the transfer raised nothing
    ([False] on a missing file, on missing or incomplete credentials
    and on any other error of the transfer). *)
Theorem upload_to_s3_key_is_file_name file_name bucket_name w :
  calls (snd (upload_to_s3 file_name bucket_name None w)) =
    (calls w ++ [CallS3Upload file_name bucket_name file_name])%list
  /\
  (Py.rfind "/" file_name = (-1)%Z -> Py.basename file_name = file_name)
  /\
  fst (upload_to_s3 file_name bucket_name None w) =
    Ret (match files w !! file_name with
         | None => false
         | Some content =>
             match s3_put content bucket_name file_name with
             | None => true
             | Some _ => false
             end
         end)
  /\
  (forall object_name, never_raises (upload_to_s3 file_name bucket_name object_name)).
Proof.
  destruct (upload_to_s3_run file_name bucket_name w) as [Hcalls Hresult].
  split; [exact Hcalls |]. split; [| split; [exact Hresult |]].
  - intros Hsep. unfold Py.basename. rewrite Hsep. reflexivity.
  - intros object_name. apply upload_to_s3_returns.
Qed.

End Handler.

(** ** Output file names: [generate_output_file] *)

Section PathNames.

Lemma has_char_app c a b : has_char c (a +:+ b) = has_char c a || has_char c b.
Proof.
  induction a as [| x a IH]; [reflexivity |].
  rewrite str_app_cons. simpl. rewrite IH, orb_assoc. reflexivity.
Qed.

Lemma rfind_from_absent c s i last :
  has_char c s = false -> Py.rfind_from c s i last = last.
Proof.
  revert i last. induction s as [| d s IH]; intros i last H; simpl in *; [reflexivity |].
  apply orb_false_iff in H. destruct H as [Hd Hs].
  rewrite Hd. apply IH. exact Hs.
Qed.

Lemma rfind_from_last c s1 s2 i last :
  has_char c s2 = false ->
  Py.rfind_from c (s1 +:+ String c s2) i last = (i + Z.of_nat (String.length s1))%Z.
Proof.
  intros H. revert i last. induction s1 as [| d s1 IH]; intros i last.
  - simpl. rewrite Ascii.eqb_refl. rewrite rfind_from_absent by exact H. lia.
  - rewrite str_app_cons. simpl Py.rfind_from. rewrite IH. simpl String.length. lia.
Qed.

Lemma rfind_absent c s : has_char c s = false -> Py.rfind c s = (-1)%Z.
Proof. apply rfind_from_absent. Qed.

Lemma rfind_last c s1 s2 :
  has_char c s2 = false ->
  Py.rfind c (s1 +:+ String c s2) = Z.of_nat (String.length s1).
Proof. intros H. unfold Py.rfind. rewrite rfind_from_last by exact H. lia. Qed.

(** A string that holds [c] splits at its last [c]. *)
Lemma has_char_split c s :
  has_char c s = true ->
  exists s1 s2, s = s1 +:+ String c s2 /\ has_char c s2 = false.
Proof.
  induction s as [| d s IH]; simpl; [discriminate |].
  destruct (has_char c s) eqn:Hs.
  - intros _. destruct (IH eq_refl) as (s1 & s2 & -> & H2).
    exists (String d s1), s2. split; [reflexivity | exact H2].
  - rewrite orb_false_r. intros Hd. apply Ascii.eqb_eq in Hd. subst d.
    exists "", s. split; [reflexivity | exact Hs].
Qed.

Lemma drop_str_app s1 s2 : Py.drop_str (String.length s1) (s1 +:+ s2) = s2.
Proof. induction s1 as [| d s1 IH]; [destruct s2; reflexivity | exact IH]. Qed.

Lemma take_str_app s1 s2 : Py.take_str (String.length s1) (s1 +:+ s2) = s1.
Proof.
  induction s1 as [| d s1 IH]; [destruct s2; reflexivity |].
  rewrite str_app_cons. simpl. rewrite IH. reflexivity.
Qed.

Lemma basename_split dir name :
  has_char "/" name = false -> Py.basename (dir +:+ String "/" name) = name.
Proof.
  intros H. unfold Py.basename, Py.slice_from. rewrite rfind_last by exact H.
  replace (Z.to_nat (Z.of_nat (String.length dir) + 1))
    with (String.length (dir +:+ "/")).
  - change (dir +:+ String "/" name) with (dir +:+ ("/" +:+ name)).
    rewrite <- (drop_str_app (dir +:+ "/") name) at 2.
    f_equal. clear. induction dir as [| d dir IH]; [reflexivity |].
    rewrite !str_app_cons. f_equal. exact IH.
  - clear. induction dir as [| d dir IH]; [reflexivity |].
    rewrite str_app_cons. simpl String.length. rewrite IH. lia.
Qed.

Lemma basename_plain_name name :
  has_char "/" name = false -> Py.basename name = name.
Proof. intros H. unfold Py.basename. rewrite rfind_absent by exact H. reflexivity. Qed.

Lemma basename_no_separator p : has_char "/" (Py.basename p) = false.
Proof.
  destruct (has_char "/" p) eqn:Hp.
  - destruct (has_char_split _ _ Hp) as (s1 & s2 & -> & H2).
    rewrite basename_split by exact H2. exact H2.
  - rewrite basename_plain_name by exact Hp. exact Hp.
Qed.

Lemma has_char_take c n s : has_char c s = false -> has_char c (Py.take_str n s) = false.
Proof.
  revert n. induction s as [| d s IH]; intros [| n] H; simpl in *; try reflexivity.
  apply orb_false_iff in H. destruct H as [Hd Hs]. rewrite Hd. simpl. apply IH. exact Hs.
Qed.

Lemma splitext_loop_fst fuel p fi di :
  fst (Py.splitext_loop fuel p fi di) = p \/
  fst (Py.splitext_loop fuel p fi di) = Py.slice_to di p.
Proof.
  revert fi. induction fuel as [| fuel IH]; intros fi; simpl; [left; reflexivity |].
  destruct (fi <? di)%Z; [| left; reflexivity].
  destruct (negb _); [right; reflexivity | apply IH].
Qed.

Lemma splitext_no_separator p :
  has_char "/" p = false -> has_char "/" (fst (Py.splitext p)) = false.
Proof.
  intros H. unfold Py.splitext.
  destruct (_ <? _)%Z; [| exact H].
  destruct (splitext_loop_fst (Z.to_nat (Py.rfind "." p - (Py.rfind "/" p + 1))) p
              (Py.rfind "/" p + 1) (Py.rfind "." p)) as [-> | ->];
    [exact H | apply has_char_take; exact H].
Qed.

Lemma lower_ascii_separator d : Ascii.eqb (Py.lower_ascii d) "/" = Ascii.eqb d "/".
Proof. destruct d as [[] [] [] [] [] [] [] []]; reflexivity. Qed.

Lemma has_char_lower_separator s : has_char "/" (Py.lower s) = has_char "/" s.
Proof.
  induction s as [| d s IH]; [reflexivity |].
  simpl. rewrite lower_ascii_separator, IH. reflexivity.
Qed.

Lemma generate_output_file_no_separator input_file output_format :
  has_char "/" output_format = false ->
  has_char "/" (generate_output_file input_file output_format) = false.
Proof.
  intros H. unfold generate_output_file.
  rewrite !has_char_app, has_char_lower_separator, H.
  rewrite splitext_no_separator by apply basename_no_separator. reflexivity.
Qed.


(** The name the handler uploads is its own base name. *)
Lemma basename_of_output input_file output_format :
  has_char "/" output_format = false ->
  Py.basename (generate_output_file input_file output_format) =
  generate_output_file input_file output_format.
Proof.
  intros H. apply basename_plain_name. apply generate_output_file_no_separator. exact H.
Qed.

Lemma char_at_succ k d r :
  (0 <= k)%Z -> Py.char_at (k + 1) (String d r) = Py.char_at k r.
Proof.
  intros Hk. unfold Py.char_at, Py.slice_from.
  replace (Z.to_nat (k + 1)) with (S (Z.to_nat k)) by lia. reflexivity.
Qed.

Lemma has_non_dot_index base rest :
  has_non_dot base = true ->
  exists k, (0 <= k < Z.of_nat (String.length base))%Z /\
            String.eqb (Py.char_at k (base +:+ rest)) "." = false.
Proof.
  induction base as [| d base IH]; simpl; [discriminate |].
  destruct (Ascii.eqb d ".") eqn:Hd; simpl.
  - intros H. destruct (IH H) as (k & Hk & Hc).
    exists (k + 1)%Z. split; [lia |].
    rewrite str_app_cons, char_at_succ by lia. exact Hc.
  - intros _. exists 0%Z. split; [lia |].
    rewrite str_app_cons. unfold Py.char_at, Py.slice_from. simpl.
    rewrite Hd. reflexivity.
Qed.

Lemma splitext_loop_found fuel p fi di :
  (exists k, (fi <= k < di)%Z /\ String.eqb (Py.char_at k p) "." = false) ->
  (Z.to_nat (di - fi) <= fuel)%nat ->
  Py.splitext_loop fuel p fi di = (Py.slice_to di p, Py.slice_from di p).
Proof.
  revert fi. induction fuel as [| fuel IH]; intros fi (k & Hk & Hc) Hfuel.
  - lia.
  - simpl. destruct (fi <? di)%Z eqn:Hlt; [| apply Z.ltb_ge in Hlt; lia].
    destruct (String.eqb (Py.char_at fi p) ".") eqn:Hfi; simpl; [| reflexivity].
    apply IH; [| lia].
    exists k. split; [| exact Hc].
    assert (k <> fi) by (intros ->; congruence). lia.
Qed.

Lemma splitext_extension base ext :
  has_char "/" (base +:+ String "." ext) = false ->
  has_char "." ext = false ->
  has_non_dot base = true ->
  Py.splitext (base +:+ String "." ext) = (base, String "." ext).
Proof.
  intros Hsep Hext Hbase. unfold Py.splitext.
  rewrite (rfind_absent _ _ Hsep), (rfind_last "." base ext Hext).
  destruct (-1 <? Z.of_nat (String.length base))%Z eqn:Hlt;
    [| apply Z.ltb_ge in Hlt; lia].
  rewrite splitext_loop_found.
  - unfold Py.slice_to, Py.slice_from. rewrite Nat2Z.id.
    rewrite take_str_app, drop_str_app. reflexivity.
  - destruct (has_non_dot_index base (String "." ext) Hbase) as (k & Hk & Hc).
    exists k. split; [lia | exact Hc].
  - lia.
Qed.

Lemma splitext_no_dot p :
  has_char "/" p = false -> has_char "." p = false -> Py.splitext p = (p, "").
Proof.
  intros Hsep Hdot. unfold Py.splitext.
  rewrite (rfind_absent _ _ Hsep), (rfind_absent _ _ Hdot). reflexivity.
Qed.


(** X1.  The output file name has no directory part, whatever the
    directory of the input: for a format token without a separator,
    [generate_output_file] returns a name without [/], which is its own
    base name.  The output is therefore written in the working
    directory of the process. *)
Theorem generate_output_file_in_working_directory input_file output_format :
  has_char "/" output_format = false ->
  has_char "/" (generate_output_file input_file output_format) = false /\
  Py.basename (generate_output_file input_file output_format) =
    generate_output_file input_file output_format.
Proof.
  intros H. split.
  - apply generate_output_file_no_separator. exact H.
  - apply basename_of_output. exact H.
Qed.

(** X2.  [generate_output_file] replaces the extension: when the base
    name of the input is [base.ext], with [ext] free of dots and [base]
    not made of dots only, the result is [base] followed by a dot and
    the lowercased format.  Converting a file to its own (lowercase)
    extension thus names the output like the input's base name. *)
Theorem generate_output_file_replaces_extension input_file output_format base ext :
  Py.basename input_file = base +:+ String "." ext ->
  has_char "." ext = false ->
  has_non_dot base = true ->
  generate_output_file input_file output_format = base +:+ "." +:+ Py.lower output_format
  /\ (Py.lower output_format = ext ->
      generate_output_file input_file output_format = Py.basename input_file).
Proof.
  intros Hname Hext Hbase.
  assert (generate_output_file input_file output_format =
          base +:+ "." +:+ Py.lower output_format) as Hout.
  { unfold generate_output_file. rewrite Hname.
    rewrite splitext_extension; [reflexivity | | exact Hext | exact Hbase].
    rewrite <- Hname. apply basename_no_separator. }
  split; [exact Hout |].
  intros Hsame. rewrite Hout, Hsame, Hname. reflexivity.
Qed.

(** X3.  An input whose base name has no dot keeps its whole base name:
    the format is appended as the extension. *)
Theorem generate_output_file_appends_extension input_file output_format :
  has_char "." (Py.basename input_file) = false ->
  generate_output_file input_file output_format =
  Py.basename input_file +:+ "." +:+ Py.lower output_format.
Proof.
  intros Hdot. unfold generate_output_file.
  rewrite splitext_no_dot; [reflexivity | apply basename_no_separator | exact Hdot].
Qed.

End PathNames.

(** ** More on the orchestrator and the [.off] writer *)

Section OrchestratorRuns.

Context {KD : KernelData} {E : Env}.

(** X4.  A missing input: [convert_step] returns [False], leaves the
    disk as it was, opens no document and calls no loader or exporter
    (its only call closes a document that was already active), and the
    last line it prints is the error with the path that was not found. *)
Theorem convert_step_missing_input_effects input_file output_file output_format tolerance w :
  files w !! input_file = None ->
  let w' := snd (convert_step input_file output_file output_format tolerance w) in
  fst (convert_step input_file output_file output_format tolerance w) = Ret false /\
  files w' = files w /\
  calls w' =
    (calls w ++ match ActiveDocument w with
                | Some name => [CallCloseDocument name]
                | None => []
                end)%list /\
  last (stdout w') =
    Some ("Error during conversion: Input file not found: " +:+ input_file).
Proof.
  intros Hmissing. cbv zeta.
  unfold convert_step, try_finally, try_except, convert_step_try, convert_step_finally.
  cbn -[load_shape export_shape String.append].
  rewrite bool_decide_eq_false_2 by (rewrite Hmissing; intros [? ?]; discriminate).
  cbn -[load_shape export_shape String.append].
  destruct (ActiveDocument w); cbn -[String.append];
    repeat split; try reflexivity; try (rewrite app_nil_r; reflexivity);
    apply last_snoc.
Qed.

Lemma export_shape_result_files shape output_file output_format tolerance w1 w2 :
  files w1 = files w2 ->
  fst (export_shape shape output_file output_format tolerance w1) =
  fst (export_shape shape output_file output_format tolerance w2).
Proof.
  intros Hfiles. rewrite !export_shape_dispatch.
  destruct (resolve output_format) as [op |]; [| reflexivity].
  destruct op; unfold run_export_op, tessellate_then, bind, kernel_call, kernel_export;
    rewrite ?Hfiles; simpl;
    try (destruct (Shape_tessellate shape tolerance); simpl; rewrite ?Hfiles);
    try reflexivity;
    repeat match goal with
           | |- context [let (_, _) := ?x in _] => destruct x
           end; try reflexivity.
  rewrite !export_off_returns. reflexivity.
Qed.

Lemma convert_step_happy input_file output_file output_format tolerance w shape :
  is_Some (files w !! input_file) ->
  loaded (files w) input_file tolerance = Ret shape ->
  fst (export_shape shape output_file output_format tolerance w) = Ret tt ->
  fst (convert_step input_file output_file output_format tolerance w) = Ret true.
Proof.
  intros Hfound Hload Hexport. rewrite convert_step_returns_bool_aux. f_equal.
  destruct (convert_step_try_from_load input_file output_file output_format tolerance w Hfound)
    as (w0 & Hfiles & ->).
  rewrite (bind_fst _ _ _ shape) by (rewrite load_shape_result, Hfiles; exact Hload).
  cbn -[load_shape export_shape String.append].
  rewrite (bind_fst _ _ _ tt).
  - reflexivity.
  - rewrite <- Hexport. apply export_shape_result_files.
    cbn. rewrite load_shape_keeps_files. exact Hfiles.
Qed.

(** X5.  [convert_step] returns [True] exactly when the input exists,
    the loader of its branch returns a shape, and the export of that
    shape raises nothing. *)
Theorem convert_step_succeeds_iff input_file output_file output_format tolerance w :
  fst (convert_step input_file output_file output_format tolerance w) = Ret true <->
  is_Some (files w !! input_file) /\
  exists shape,
    loaded (files w) input_file tolerance = Ret shape /\
    fst (export_shape shape output_file output_format tolerance w) = Ret tt.
Proof.
  split.
  - intros Htrue.
    assert (is_Some (files w !! input_file)) as Hfound.
    { destruct (files w !! input_file) eqn:Hf; [eauto |].
      rewrite (convert_step_missing_input_false _ _ _ _ _ Hf) in Htrue. discriminate. }
    split; [exact Hfound |].
    destruct (loaded (files w) input_file tolerance) as [shape | e] eqn:Hload.
    2:{ rewrite (convert_step_load_error _ _ _ _ _ _ Hfound Hload) in Htrue.
        discriminate. }
    exists shape. split; [reflexivity |].
    destruct (fst (export_shape shape output_file output_format tolerance w))
      as [[] | e] eqn:Hexport; [reflexivity |].
    rewrite (convert_step_export_error _ _ _ _ _ shape Hfound Hload) in Htrue;
      [discriminate |].
    intros w' Hfiles.
    rewrite (export_shape_result_files _ _ _ _ w' w Hfiles), Hexport. reflexivity.
  - intros (Hfound & shape & Hload & Hexport).
    apply (convert_step_happy _ _ _ _ _ shape); assumption.
Qed.

(** X6.  The tokens [stl], [obj] and [ply] run the same statements:
    [Mesh.write] is called on the output path either way, so among them
    the token does not choose the file that is written. *)
Theorem mesh_targets_share_export shape output_file f1 f2 tolerance :
  Py.lower f1 ∈ ["stl"; "obj"; "ply"] ->
  Py.lower f2 ∈ ["stl"; "obj"; "ply"] ->
  export_shape shape output_file f1 tolerance = export_shape shape output_file f2 tolerance.
Proof.
  intros H1 H2. rewrite !export_shape_dispatch. unfold resolve.
  repeat (apply elem_of_cons in H1; destruct H1 as [-> | H1]);
    try (apply elem_of_nil in H1; contradiction);
    repeat (apply elem_of_cons in H2; destruct H2 as [-> | H2]);
    try (apply elem_of_nil in H2; contradiction); reflexivity.
Qed.

(** *** Lines of the [.off] file *)

Lemma count_char_app c a b : count_char c (a +:+ b) = count_char c a + count_char c b.
Proof.
  induction a as [| x a IH]; [reflexivity |].
  rewrite str_app_cons. simpl. rewrite IH. lia.
Qed.

Lemma count_char_absent c s : has_char c s = false -> count_char c s = 0.
Proof.
  induction s as [| d s IH]; simpl; [reflexivity |].
  intros H. apply orb_false_iff in H. destruct H as [-> Hs]. rewrite IH by exact Hs.
  reflexivity.
Qed.

Lemma unlines_count (ls : list string) :
  Forall (fun l => has_char newline l = false) ls ->
  count_char newline (unlines ls) = length ls.
Proof.
  induction 1 as [| l ls Hl _ IH]; simpl; [reflexivity |].
  rewrite !count_char_app, (count_char_absent _ _ Hl), IH. reflexivity.
Qed.

Lemma string_of_uint_no_newline d :
  has_char newline (NilEmpty.string_of_uint d) = false.
Proof. induction d; simpl; auto. Qed.

Lemma str_nat_no_newline n : has_char newline (Py.str_nat n) = false.
Proof. apply string_of_uint_no_newline. Qed.

Lemma join_no_newline parts :
  Forall (fun l => has_char newline l = false) parts ->
  has_char newline (Py.join " " parts) = false.
Proof.
  induction 1 as [| p parts Hp Hrest IH]; [reflexivity |].
  destruct parts as [| q parts]; [exact Hp |].
  change (Py.join " " (p :: q :: parts)) with (p +:+ " " +:+ Py.join " " (q :: parts)).
  rewrite !has_char_app, Hp, IH. reflexivity.
Qed.

Lemma off_lines_no_newline mesh :
  prints_on_one_line mesh = true ->
  Forall (fun l => has_char newline l = false) (off_lines mesh).
Proof.
  unfold prints_on_one_line. intros H.
  apply andb_true_iff in H. destruct H as [Hpoints Hfacets].
  rewrite forallb_forall in Hpoints, Hfacets.
  unfold off_lines.
  repeat apply Forall_cons_2; [reflexivity | |].
  - rewrite !has_char_app, !str_nat_no_newline. reflexivity.
  - apply Forall_app. split; apply Forall_fmap, Forall_forall; intros x Hx; simpl.
    + apply list_elem_of_In, Hpoints in Hx.
      apply andb_true_iff in Hx. destruct Hx as [Hx Hz].
      apply andb_true_iff in Hx. destruct Hx as [Hx Hy].
      apply negb_true_iff in Hx, Hy, Hz.
      unfold off_vertex_line. apply join_no_newline.
      repeat apply Forall_cons_2; auto.
    + apply list_elem_of_In, Hfacets in Hx. rewrite forallb_forall in Hx.
      unfold off_face_line. rewrite !has_char_app, str_nat_no_newline. simpl.
      apply join_no_newline. apply Forall_fmap, Forall_forall. intros p Hp. simpl.
      apply list_elem_of_In, Hx in Hp. apply negb_true_iff in Hp. exact Hp.
Qed.

(** X7.  The counts line tells the number of lines that follow: when
    no coordinate and no facet point prints with a line break, the file
    [export_off] writes has exactly 2 + V + F line ends, V and F being
    the numbers announced on its second line. *)
Theorem export_off_line_count mesh output_file w :
  writable output_file = true ->
  String.length (unlines (off_lines mesh)) <= disk_free w ->
  prints_on_one_line mesh = true ->
  exists content,
    files (snd (export_off mesh output_file w)) !! output_file = Some content /\
    count_char newline content =
      2 + length (mesh_Points mesh) + length (mesh_Facets mesh).
Proof.
  intros Hw Hroom Hlines.
  destruct (export_off_writes mesh output_file w Hw Hroom) as (w' & Hrun & Hfiles & _).
  exists (unlines (off_lines mesh)). rewrite Hrun. simpl snd. rewrite Hfiles.
  split; [apply lookup_insert_eq |].
  rewrite unlines_count by (apply off_lines_no_newline; assumption).
  unfold off_lines. simpl. rewrite length_app, !length_map. reflexivity.
Qed.

End OrchestratorRuns.

(** ** More on the publisher and the handler *)

Section HandlerRuns.

Context {KD : KernelData} {E : Env}.

(** *** What the two S3 functions do to the world *)

Lemma upload_to_s3_effect_key file_name bucket_name object_name w :
  let key := default file_name object_name in
  let w' := snd (upload_to_s3 file_name bucket_name object_name w) in
  fst (upload_to_s3 file_name bucket_name object_name w) =
    Ret (match files w !! file_name with
         | Some content =>
             match s3_put content bucket_name key with
             | None => true
             | Some _ => false
             end
         | None => false
         end) /\
  files w' = files w /\ doc_state w' = doc_state w /\ ledger w' = ledger w /\
  calls w' = (calls w ++ [CallS3Upload file_name bucket_name key])%list.
Proof.
  cbv zeta.
  unfold upload_to_s3, try_except, bind, s3_upload_file, print, modify, ret.
  destruct (files w !! file_name) as [content |]; simpl.
  - destruct (s3_put content bucket_name (default file_name object_name)) as [e |] eqn:Hput;
      destruct object_name; simpl in *; rewrite Hput; simpl.
    + destruct (exn_kind e); simpl; repeat split.
    + destruct (exn_kind e); simpl; repeat split.
    + repeat split.
    + repeat split.
  - destruct object_name; repeat split.
Qed.

(** X8.  [upload_to_s3] makes exactly one upload call, under the given
    object key when there is one; it returns [True] exactly when the
    local file exists and the transfer raises nothing; and whatever
    happens it changes nothing on disk, in the kernel or in the
    document store. *)
Theorem upload_to_s3_effects file_name bucket_name object_name w :
  let key := default file_name object_name in
  let w' := snd (upload_to_s3 file_name bucket_name object_name w) in
  fst (upload_to_s3 file_name bucket_name object_name w) =
    Ret (match files w !! file_name with
         | Some content =>
             match s3_put content bucket_name key with
             | None => true
             | Some _ => false
             end
         | None => false
         end) /\
  files w' = files w /\ doc_state w' = doc_state w /\ ledger w' = ledger w /\
  calls w' = (calls w ++ [CallS3Upload file_name bucket_name key])%list.
Proof. apply upload_to_s3_effect_key. Qed.

Lemma upload_to_s3_effect file_name bucket_name w :
  let w' := snd (upload_to_s3 file_name bucket_name None w) in
  fst (upload_to_s3 file_name bucket_name None w) =
    Ret (upload_succeeds (files w) file_name bucket_name) /\
  files w' = files w /\ doc_state w' = doc_state w /\ ledger w' = ledger w /\
  calls w' = (calls w ++ [CallS3Upload file_name bucket_name file_name])%list.
Proof.
  cbv zeta.
  unfold upload_to_s3, upload_succeeds, try_except, bind, s3_upload_file, print, modify, ret.
  destruct (files w !! file_name) as [content |]; simpl.
  - destruct (s3_put content bucket_name file_name) as [e |]; simpl.
    + destruct (exn_kind e); simpl; repeat split.
    + repeat split.
  - repeat split.
Qed.

Lemma generate_presigned_url_effect bucket_name object_name expiration w :
  let w' := snd (generate_presigned_url bucket_name object_name expiration w) in
  fst (generate_presigned_url bucket_name object_name expiration w) =
    Ret (match s3_presign bucket_name object_name expiration with
         | Ret url => Some url
         | Raise _ => None
         end) /\
  files w' = files w /\ doc_state w' = doc_state w /\ ledger w' = ledger w /\
  calls w' = (calls w ++ [CallS3Presign bucket_name object_name expiration])%list.
Proof.
  cbv zeta.
  unfold generate_presigned_url, try_except, bind, kernel_call, print, modify, ret.
  simpl. destruct (s3_presign _ _ _); repeat split.
Qed.

(** X9.  [generate_presigned_url] never raises: it returns the URL of
    the client, or [None] exactly when the client raises.  It makes one
    presign call with the given expiration and changes nothing on disk,
    in the kernel or in the document store. *)
Theorem generate_presigned_url_effects bucket_name object_name expiration w :
  let w' := snd (generate_presigned_url bucket_name object_name expiration w) in
  fst (generate_presigned_url bucket_name object_name expiration w) =
    Ret (match s3_presign bucket_name object_name expiration with
         | Ret url => Some url
         | Raise _ => None
         end) /\
  files w' = files w /\ doc_state w' = doc_state w /\ ledger w' = ledger w /\
  calls w' = (calls w ++ [CallS3Presign bucket_name object_name expiration])%list.
Proof. apply generate_presigned_url_effect. Qed.

(** *** Every run of the handler *)

(** Runs the first statement of a chain, a call [m] lifted into the
    handler's frame, given what [m] returns and what it leaves alone. *)
Ltac effect_step m lem r w' :=
  rewrite (bind_liftW m);
  match goal with
  | |- context [match m ?w0 with _ => _ end] =>
      let Hr := fresh "Hr" in
      let Hf := fresh "Hfiles" in
      let Hd := fresh "Hdocs" in
      let Hl := fresh "Hledger" in
      let Hc := fresh "Hcalls" in
      destruct (lem w0) as (Hr & Hf & Hd & Hl & Hc);
      destruct (m w0) as [[r | ?] w']; simpl in Hr, Hf, Hd, Hl, Hc;
      [injection Hr as -> | discriminate Hr];
      unfold ledger in Hl; injection Hl as ? ? ?;
      unfold doc_state in Hd; simpl in Hd; injection Hd as ? ?
  end;
  cbv beta.

Ltac close_run :=
  eexists; split; [reflexivity |];
  simpl;
  repeat match goal with
         | H : files _ = _ |- _ => rewrite H; clear H
         | H : calls _ = _ |- _ => rewrite H; clear H
         | H : collection _ = _ |- _ => rewrite H; clear H
         | H : db_log _ = _ |- _ => rewrite H; clear H
         | H : ActiveDocument _ = _ |- _ => rewrite H; clear H
         | H : documents _ = _ |- _ => rewrite H; clear H
         end;
  simpl; rewrite <- ?app_assoc, ?app_nil_r;
  repeat split; reflexivity.

(** The handler on a valid request: its answer and the world it
    leaves, by the path the request takes. *)
Lemma convert_run data w :
  valid_request data = true ->
  let p := path_of data w in
  let w2 := snd (conversion_of data w) in
  exists w',
    convert data w = (Ret (path_response data w p), w') /\
    files w' = files w2 /\
    doc_state w' = doc_state w2 /\
    calls w' = (calls w2 ++ path_s3_calls data p)%list /\
    collection w' =
      foldl (fun m u => alter (apply_set u) (job_oid w) m)
        (<[job_oid w := job_record data w]> (collection w))
        (SetStatus PROCESSING :: path_updates p) /\
    db_log w' =
      (db_log w ++ InsertOne (job_oid w) (job_record data w)
         :: map (UpdateOne (job_oid w)) (SetStatus PROCESSING :: path_updates p))%list.
Proof.
  intros Hvalid. cbv zeta. unfold convert, call_frame, try_except, convert_try.
  rewrite valid_request_check, Hvalid. cbn [negb]. cbv iota.
  unfold path_of, conversion_of, started, request_output_file, job_record, job_oid.
  set (oid := fresh (dom (collection w))).
  set (input_file := default "" (data !! "input_file")).
  set (output_format := default "" (data !! "output_format")).
  set (output_file := generate_output_file input_file output_format).
  set (bucket := default "" (data !! "s3_bucket")).
  set (record := {| job_s3_bucket := data !! "s3_bucket"; job_status := PENDING;
                    job_organization_id := default "" (data !! "organization_id");
                    job_expiryAt := (now w + 86400)%Z; job_error := None;
                    job_s3_link := None |}).
  cbn -[convert_step upload_to_s3 generate_presigned_url generate_output_file fresh
        String.append jsonify upload_succeeds presigned path_response path_s3_calls
        path_updates doc_state].
  fold oid. fold record.
  set (w1 := set_collection _ (UpdateOne oid (SetStatus PROCESSING)) _).
  rewrite (bind_liftW (convert_step input_file output_file output_format default_tolerance)).
  pose proof (convert_step_returns input_file output_file output_format default_tolerance w1)
    as Hr2.
  pose proof (convert_step_keeps_ledger input_file output_file output_format
                default_tolerance w1) as Hk2.
  destruct (convert_step input_file output_file output_format default_tolerance w1)
    as [[success | ?] w2]; simpl in Hr2, Hk2; [clear Hr2 | discriminate Hr2].
  unfold ledger in Hk2. simpl in Hk2. injection Hk2 as Hcol2 Hlog2 _.
  cbv beta. cbn [fst snd].
  destruct success; cbn [negb]; cbv iota beta.
  2:{ cbn -[String.append jsonify]. unfold doc_state. close_run. }
  cbn -[upload_to_s3 generate_presigned_url String.append jsonify upload_succeeds
        presigned path_response path_s3_calls path_updates doc_state].
  destruct (Py.truthy (data !! "s3_bucket")).
  2:{ cbn -[String.append jsonify]. unfold doc_state. close_run. }
  fold bucket.
  set (w3 := set_collection _ (UpdateOne oid (SetStatus UPLOADING)) w2).
  effect_step (upload_to_s3 output_file bucket None)
    (upload_to_s3_effect output_file bucket) upload_success w4.
  destruct (upload_succeeds (files w2) output_file bucket); cbn [negb]; cbv iota beta.
  2:{ cbn -[String.append jsonify]. unfold doc_state. close_run. }
  effect_step (generate_presigned_url bucket (Py.basename output_file) 3600)
    (generate_presigned_url_effect bucket (Py.basename output_file) 3600) link w5.
  unfold presigned.
  destruct (s3_presign bucket (Py.basename output_file) 3600) as [url | e].
  - cbn -[String.append jsonify Py.truthy].
    destruct (Py.truthy (Some url)); cbn [negb]; cbv iota beta;
      cbn -[String.append jsonify]; unfold doc_state; close_run.
  - cbn -[String.append jsonify]. unfold doc_state. close_run.
Qed.


Lemma body_error_lookup msg rest :
  jsonify (("error", JString msg) :: rest) !! "error" = Some (JString msg).
Proof. unfold jsonify. simpl. apply lookup_insert_eq. Qed.

Lemma path_response_code data w p :
  code (path_response data w p) = match p with Completed _ => 200 | _ => 500 end.
Proof. destruct p; reflexivity. Qed.



Lemma lookup_foldl_alter_ne (oid oid' : nat) (m : gmap nat Job) (us : list set_doc) :
  oid <> oid' ->
  foldl (fun m u => alter (apply_set u) oid m) m us !! oid' = m !! oid'.
Proof.
  intros Hne. revert m. induction us as [| u us IH]; intros m; simpl; [reflexivity |].
  rewrite IH. apply lookup_alter_ne. exact Hne.
Qed.

Lemma lookup_foldl_alter_eq (oid : nat) (m : gmap nat Job) (us : list set_doc) :
  foldl (fun m u => alter (apply_set u) oid m) m us !! oid =
  (fun job => foldl (fun job u => apply_set u job) job us) <$> m !! oid.
Proof.
  revert m. induction us as [| u us IH]; intros m; simpl.
  - destruct (m !! oid); reflexivity.
  - rewrite IH, lookup_alter_eq. destruct (m !! oid); reflexivity.
Qed.

Lemma statuses_written_updates oid record us :
  statuses_written oid (InsertOne oid record :: map (UpdateOne oid) us) =
  job_status record :: map set_doc_status us.
Proof.
  simpl. rewrite Nat.eqb_refl. f_equal.
  induction us as [| u us IH]; simpl; [reflexivity |].
  rewrite Nat.eqb_refl, IH. reflexivity.
Qed.

Lemma job_oid_fresh w : collection w !! job_oid w = None.
Proof. apply not_elem_of_dom. apply is_fresh. Qed.

(** The record of the job after a valid request. *)
Lemma convert_record data w :
  valid_request data = true ->
  collection (snd (convert data w)) !! job_oid w =
  Some (updated_job data w (SetStatus PROCESSING :: path_updates (path_of data w))).
Proof.
  intros Hvalid.
  destruct (convert_run data w Hvalid) as (w' & Hrun & _ & _ & _ & Hcol & _).
  rewrite Hrun. simpl snd. rewrite Hcol.
  rewrite lookup_foldl_alter_eq, lookup_insert_eq. reflexivity.
Qed.

Lemma convert_new_writes data w :
  valid_request data = true ->
  new_writes w (snd (convert data w)) =
  InsertOne (job_oid w) (job_record data w)
    :: map (UpdateOne (job_oid w)) (SetStatus PROCESSING :: path_updates (path_of data w)).
Proof.
  intros Hvalid.
  destruct (convert_run data w Hvalid) as (w' & Hrun & _ & _ & _ & _ & Hlog).
  rewrite Hrun. apply new_writes_app. exact Hlog.
Qed.

Lemma convert_response data w :
  valid_request data = true ->
  fst (convert data w) = Ret (path_response data w (path_of data w)).
Proof.
  intros Hvalid. destruct (convert_run data w Hvalid) as (w' & -> & _). reflexivity.
Qed.

(** X11.  Every valid request finalises its job exactly once.  The
    statuses written to the job are PENDING, PROCESSING, then possibly
    UPLOADING, then one terminal status, COMPLETED or FAILED, which is
    the status the record is left with; the job is COMPLETED exactly
    when the answer is 200. *)
Theorem job_lifecycle data w :
  valid_request data = true ->
  exists resp final,
    fst (convert data w) = Ret resp /\
    (final = COMPLETED \/ final = FAILED) /\
    (statuses_written (job_oid w) (new_writes w (snd (convert data w))) =
       [PENDING; PROCESSING; final] \/
     statuses_written (job_oid w) (new_writes w (snd (convert data w))) =
       [PENDING; PROCESSING; UPLOADING; final]) /\
    final_status (job_oid w) (snd (convert data w)) = Some final /\
    (final = COMPLETED <-> code resp = 200).
Proof.
  intros Hvalid.
  exists (path_response data w (path_of data w)).
  unfold final_status.
  rewrite (convert_response data w Hvalid), (convert_new_writes data w Hvalid),
    (convert_record data w Hvalid), statuses_written_updates, path_response_code.
  destruct (path_of data w); simpl.
  all: try (exists FAILED; repeat split; auto; discriminate).
  exists COMPLETED. repeat split; auto.
Qed.

(** X12.  A request changes no record of another job: every record
    that is in the collection before the request is there, unchanged,
    after it. *)
Theorem other_records_untouched data w oid job :
  collection w !! oid = Some job ->
  collection (snd (convert data w)) !! oid = Some job.
Proof.
  intros Hjob.
  destruct (valid_request data) eqn:Hvalid.
  - destruct (convert_run data w Hvalid) as (w' & Hrun & _ & _ & _ & Hcol & _).
    rewrite Hrun. simpl snd. rewrite Hcol.
    assert (job_oid w <> oid) as Hne.
    { intros <-. rewrite job_oid_fresh in Hjob. discriminate. }
    rewrite lookup_foldl_alter_ne, lookup_insert_ne by exact Hne. exact Hjob.
  - rewrite (convert_invalid data w Hvalid). exact Hjob.
Qed.

(** X13.  The record a valid request leaves agrees with the request
    and with the answer: it holds the request's organization and
    bucket, expires 24 hours (86400 s) after the request's time, and
    is either COMPLETED with no error and the very link the 200 answer
    returns, or FAILED with no link and the very error text the answer
    returns. *)
Theorem stored_record data w :
  valid_request data = true ->
  exists resp job,
    fst (convert data w) = Ret resp /\
    collection (snd (convert data w)) !! job_oid w = Some job /\
    job_organization_id job = default "" (data !! "organization_id") /\
    job_s3_bucket job = data !! "s3_bucket" /\
    job_expiryAt job = (now w + 86400)%Z /\
    (code resp = 200 ->
     job_status job = COMPLETED /\ job_error job = None /\
     exists link, job_s3_link job = Some link /\
                  body resp !! "s3_download_link" = Some (JString link)) /\
    (code resp <> 200 ->
     job_status job = FAILED /\ job_s3_link job = None /\
     exists msg, job_error job = Some msg /\
                 body resp !! "error" = Some (JString msg)).
Proof.
  intros Hvalid.
  exists (path_response data w (path_of data w)). eexists.
  split; [apply (convert_response data w Hvalid) |].
  split; [apply (convert_record data w Hvalid) |].
  rewrite path_response_code.
  destruct (path_of data w); cbn -[jsonify String.append];
    repeat split; try reflexivity; try discriminate; try congruence;
    intros; try congruence.
  all: try (eexists; split; [reflexivity | apply body_error_lookup]).
  eexists. split; [reflexivity |]. reflexivity.
Qed.


Lemma supported_no_separator output_format :
  Py.lower output_format ∈ supported_tokens -> has_char "/" output_format = false.
Proof.
  intros H. rewrite <- has_char_lower_separator.
  unfold supported_tokens, export_table in H. simpl in H.
  repeat (apply elem_of_cons in H; destruct H as [-> | H]; [reflexivity |]).
  apply elem_of_nil in H. contradiction.
Qed.

Lemma converted_output_is_base_name data w :
  fst (conversion_of data w) = Ret true ->
  Py.basename (request_output_file data) = request_output_file data.
Proof.
  intros Htrue. unfold request_output_file. apply basename_of_output.
  apply supported_no_separator. apply resolve_supported.
  destruct (resolve (default "" (data !! "output_format"))) eqn:Hres; [eauto |].
  unfold conversion_of in Htrue.
  rewrite (unsupported_is_false _ _ _ _ _ Hres) in Htrue. discriminate.
Qed.

(** X14.  The S3 calls of a valid request, after those of the
    conversion.  There is none when the conversion fails or no bucket
    is given.  Otherwise the output file is uploaded to the request's
    bucket under its own name, and a link is requested only if that
    upload succeeded, for the same bucket and the same key, valid one
    hour. *)
Theorem s3_calls_of_request data w :
  valid_request data = true ->
  let w2 := snd (conversion_of data w) in
  let output_file := request_output_file data in
  let bucket := default "" (data !! "s3_bucket") in
  calls (snd (convert data w)) =
  (calls w2 ++
   match fst (conversion_of data w) with
   | Ret true =>
       if Py.truthy (data !! "s3_bucket") then
         CallS3Upload output_file bucket output_file
           :: (if upload_succeeds (files w2) output_file bucket
               then [CallS3Presign bucket output_file 3600] else [])
       else []
   | _ => []
   end)%list.
Proof.
  intros Hvalid. cbv zeta.
  destruct (convert_run data w Hvalid) as (w' & Hrun & _ & _ & Hcalls & _).
  rewrite Hrun. simpl snd. rewrite Hcalls. f_equal.
  pose proof (converted_output_is_base_name data w) as Hbase.
  unfold path_of.
  destruct (fst (conversion_of data w)) as [[|] | e]; try reflexivity.
  destruct (Py.truthy (data !! "s3_bucket")); [| reflexivity].
  destruct (upload_succeeds _ _ _); [| reflexivity].
  destruct (presigned _ _); simpl; rewrite (Hbase eq_refl); reflexivity.
Qed.

(** X15.  A request without a (non-empty) [s3_bucket] is never
    answered 200 and never gets a download link.  If it is valid its
    job always ends FAILED, also when the conversion succeeded: the
    answer is then the unbound-local error alone, without the
    conversion id. *)
Theorem no_bucket_never_succeeds data w :
  Py.truthy (data !! "s3_bucket") = false ->
  exists resp,
    fst (convert data w) = Ret resp /\
    (code resp = 400 \/ code resp = 500) /\
    body resp !! "s3_download_link" = None /\
    (valid_request data = true ->
     final_status (job_oid w) (snd (convert data w)) = Some FAILED /\
     (fst (conversion_of data w) = Ret true ->
      body resp = jsonify [("error", JString (str_exn unbound_s3_download_link))])).
Proof.
  intros Hbucket.
  destruct (valid_request data) eqn:Hvalid.
  - exists (path_response data w (path_of data w)).
    split; [apply (convert_response data w Hvalid) |].
    unfold final_status. rewrite (convert_record data w Hvalid).
    unfold path_of. rewrite Hbucket.
    destruct (fst (conversion_of data w)) as [[|] | e]; cbn -[jsonify String.append];
      (split; [auto |]); (split; [reflexivity |]); intros _;
      (split; [reflexivity |]); intros; congruence.
  - rewrite (convert_invalid data w Hvalid). eexists. split; [reflexivity |].
    simpl. split; [auto |]. split; [reflexivity |]. intros; discriminate.
Qed.


Lemma convert_step_no_active_document input_file output_file output_format tolerance w :
  ActiveDocument (snd (convert_step input_file output_file output_format tolerance w)) = None.
Proof.
  rewrite convert_step_unfold.
  destruct (convert_step_try _ _ _ _ w) as [[b | e] w1]; simpl;
    apply convert_step_finally_closes.
Qed.

(** X16.  The statements of the handler around the conversion touch
    neither the disk nor the kernel: after a valid request the disk is
    as the conversion left it (the output file is never removed, also
    after its upload) and no kernel document is active. *)
Theorem handler_keeps_disk_and_kernel data w :
  valid_request data = true ->
  let w' := snd (convert data w) in
  files w' = files (snd (conversion_of data w)) /\
  documents w' = documents (snd (conversion_of data w)) /\
  ActiveDocument w' = None.
Proof.
  intros Hvalid. cbv zeta.
  destruct (convert_run data w Hvalid) as (w' & Hrun & Hfiles & Hdocs & _).
  rewrite Hrun. simpl snd. unfold doc_state in Hdocs. injection Hdocs as Hactive Hopen.
  split; [exact Hfiles |]. split; [exact Hopen |].
  rewrite Hactive. unfold conversion_of. apply convert_step_no_active_document.
Qed.

End HandlerRuns.

(** ** The built-ins on sample values *)

Example basename_nested : Py.basename "out/run1/part.step" = "part.step".
Proof. reflexivity. Qed.
Example basename_plain : Py.basename "part.step" = "part.step".
Proof. reflexivity. Qed.
Example splitext_plain : Py.splitext "part.step" = ("part", ".step").
Proof. reflexivity. Qed.
Example splitext_hidden : Py.splitext "dir/.bashrc" = ("dir/.bashrc", "").
Proof. reflexivity. Qed.
Example splitext_dotted_dir : Py.splitext "a.b/part" = ("a.b/part", "").
Proof. reflexivity. Qed.
Example splitext_two : Py.splitext "x/archive.tar.GZ" = ("x/archive.tar", ".GZ").
Proof. reflexivity. Qed.
Example lower_mixed : Py.lower "StL" = "stl".
Proof. reflexivity. Qed.
Example str_nat_12 : Py.str_nat 12 = "12".
Proof. reflexivity. Qed.
Example str_nat_0 : Py.str_nat 0 = "0".
Proof. reflexivity. Qed.
Example join_three : Py.join " " ["0"; "1"; "2"] = "0 1 2".
Proof. reflexivity. Qed.

(** ** Runs of the module on the sample kernel *)

#[local] Existing Instance Demo.data.
#[local] Existing Instance Demo.env.

Example generate_output_file_part :
  generate_output_file "uploads/part.step" "STL" = "part.stl".
Proof. reflexivity. Qed.

Example convert_step_missing_input :
  fst (convert_step "ghost.stl" "ghost.step" "step" "0.1" Demo.world0) = Ret false
  /\ calls (snd (convert_step "ghost.stl" "ghost.step" "step" "0.1" Demo.world0)) = [].
Proof. split; vm_compute; reflexivity. Qed.

Example convert_step_kernel_down :
  fst (convert_step (E := Demo.env_kernel_down) "part.step" "part.stl" "stl" "0.1"
         Demo.world0) = Ret false
  /\ ActiveDocument
       (snd (convert_step (E := Demo.env_kernel_down) "part.step" "part.stl" "stl" "0.1"
               Demo.world0)) = None.
Proof. split; vm_compute; reflexivity. Qed.

(** C1 (the code departs from it).  The request of the scenario: input
    [part.step], format [stl], organization [org1], no bucket.  The
    conversion succeeds and writes [part.stl], yet the handler answers
    500 with the unbound-local message and leaves the job FAILED: line
    280 reads [s3_download_link], which only the [if s3_bucket:] suite
    assigns. *)
Theorem convert_without_bucket_scenario :
  let data := Demo.request [("input_file", "part.step"); ("output_format", "stl");
                            ("organization_id", "org1")] in
  let run := convert data Demo.world0 in
  data !! "s3_bucket" = None /\
  fst (conversion_of data Demo.world0) = Ret true /\
  request_output_file data = "part.stl" /\
  files (snd run) !! "part.stl" = Some "mesh" /\
  exists resp,
    fst run = Ret resp /\
    code resp = 500 /\
    body resp !! "error" = Some (JString (str_exn unbound_s3_download_link)) /\
    body resp !! "output_file" = None /\
    final_status (job_oid Demo.world0) (snd run) = Some FAILED.
Proof.
  cbv zeta. repeat split; try (vm_compute; reflexivity).
  eexists. repeat split; vm_compute; reflexivity.
Qed.

(** The same request with a bucket is answered 200 with the link. *)
Example convert_with_bucket_scenario :
  let data := Demo.request [("input_file", "part.step"); ("output_format", "stl");
                            ("organization_id", "org1"); ("s3_bucket", "bkt")] in
  exists resp,
    fst (convert data Demo.world0) = Ret resp /\
    code resp = 200 /\
    body resp !! "output_file" = Some (JString "part.stl") /\
    body resp !! "s3_download_link" = Some (JString "https://bkt.s3/part.stl").
Proof. cbv zeta. eexists. repeat split; vm_compute; reflexivity. Qed.

(** The spec's scenario of a credential error: the upload fails, the
    job is FAILED with the upload error and no link is requested. *)
Example upload_without_credentials :
  let data := Demo.request [("input_file", "part.step"); ("output_format", "stl");
                            ("organization_id", "org1"); ("s3_bucket", "bkt")] in
  let run := convert (E := Demo.env_no_credentials) data Demo.world0 in
  exists resp,
    fst run = Ret resp /\
    code resp = 500 /\
    body resp !! "error" = Some (JString "S3 upload failed") /\
    final_status (job_oid Demo.world0) (snd run) = Some FAILED /\
    calls (snd run) =
      [ CallNewDocument "ConversionDocument"; CallShapeRead "part.step";
        CallTessellate "0.1"; CallMeshWrite "part.stl";
        CallCloseDocument "ConversionDocument";
        CallS3Upload "part.stl" "bkt" "part.stl" ].
Proof. cbv zeta. eexists. repeat split; vm_compute; reflexivity. Qed.


Example off_lines_triangle :
  off_lines Demo.triangle =
  ["OFF"; "3 1 0"; "0.0 0.0 0.0"; "1.0 0.0 0.0"; "0.0 1.0 0.0"; "3 0 1 2"].
Proof. reflexivity. Qed.

(** C5, on [STL] and on [dxf]. *)
Lemma dispatch_resolves_one_export_witness :
  (exists op,
     (forall op', (Py.lower "STL", op') ∈ export_table <-> op' = op) /\
     (forall shape output_file tolerance,
        export_shape shape output_file "STL" tolerance =
        run_export_op op shape output_file tolerance))
  /\
  ((forall shape output_file tolerance w,
      export_shape shape output_file "dxf" tolerance w =
      (Raise (unsupported_format "dxf"), w)) /\
   (forall input_file output_file tolerance w,
      fst (convert_step input_file output_file "dxf" tolerance w) = Ret false)).
Proof.
  split.
  - apply (proj1 (dispatch_resolves_one_export "STL")).
    apply (bool_decide_unpack (Py.lower "STL" ∈ supported_tokens)).
    vm_compute. exact I.
  - apply (proj2 (dispatch_resolves_one_export "dxf")).
    apply (bool_decide_unpack (Py.lower "dxf" ∉ supported_tokens)).
    vm_compute. exact I.
Defined.

(** C7, on the scenario with a bucket. *)
Lemma successful_upload_lifecycle_witness :
  let data := Demo.request [("input_file", "part.step"); ("output_format", "stl");
                            ("organization_id", "org1"); ("s3_bucket", "bkt")] in
  statuses_written (job_oid Demo.world0)
    (new_writes Demo.world0 (snd (convert data Demo.world0))) =
  [PENDING; PROCESSING; UPLOADING; COMPLETED].
Proof.
  cbv zeta.
  eapply (fun resp Hb Hr Hc =>
            proj1 (proj2 (proj2 (successful_upload_lifecycle _ Demo.world0 resp Hb Hr Hc)))).
  - vm_compute. reflexivity.
  - vm_compute. reflexivity.
  - reflexivity.
Defined.

(** C9, on the scenario without [output_format]. *)
Lemma convert_missing_parameter_witness :
  let data := Demo.request [("input_file", "part.step"); ("organization_id", "org1")] in
  exists resp,
    convert data Demo.world0 = (Ret resp, Demo.world0) /\
    code resp = 400 /\
    body resp !! "error" =
      Some (JString "Missing required parameters: input_file, output_format, organization_id") /\
    new_writes Demo.world0 (snd (convert data Demo.world0)) = [] /\
    collection (snd (convert data Demo.world0)) = collection Demo.world0.
Proof.
  cbv zeta. apply convert_missing_parameter.
  right. left. vm_compute. reflexivity.
Defined.

(** C8 fails as stated: for a path with a directory the object key is
    the whole path, not the base name. *)
Lemma upload_to_s3_key_not_basename :
  exists key,
    calls (snd (upload_to_s3 "out/part.stl" "bkt" None Demo.world0)) =
      [CallS3Upload "out/part.stl" "bkt" key]
    /\ Py.basename "out/part.stl" = "part.stl"
    /\ key <> Py.basename "out/part.stl".
Proof.
  exists "out/part.stl". split; [| split].
  - vm_compute. reflexivity.
  - reflexivity.
  - discriminate.
Qed.


(** Without a bucket the same request is answered 500 as well, by the
    unbound [s3_download_link]. *)
Example off_failure_without_bucket :
  let data := Demo.request [("input_file", "locked.step"); ("output_format", "off");
                            ("organization_id", "org1")] in
  exists resp,
    fst (convert data Demo.world0) = Ret resp /\
    code resp = 500 /\
    body resp !! "error" = Some (JString (str_exn unbound_s3_download_link)).
Proof. cbv zeta. eexists. repeat split; vm_compute; reflexivity. Qed.


(** ** The further properties on the sample kernel *)

(** X1, on an input in a directory. *)
Lemma generate_output_file_in_working_directory_witness :
  has_char "/" (generate_output_file "uploads/part.step" "STL") = false /\
  Py.basename (generate_output_file "uploads/part.step" "STL") =
    generate_output_file "uploads/part.step" "STL".
Proof.
  apply (generate_output_file_in_working_directory "uploads/part.step" "STL").
  reflexivity.
Defined.

(** X2, on an archive name with two dots. *)
Lemma generate_output_file_replaces_extension_witness :
  generate_output_file "uploads/part.v2.STEP" "Stl" = "part.v2.stl".
Proof.
  apply (proj1 (generate_output_file_replaces_extension
                  "uploads/part.v2.STEP" "Stl" "part.v2" "STEP"
                  eq_refl eq_refl eq_refl)).
Defined.

(** X3, on an input without extension. *)
Lemma generate_output_file_appends_extension_witness :
  generate_output_file "uploads/part" "IGES" = "part.iges".
Proof.
  apply (generate_output_file_appends_extension "uploads/part" "IGES").
  reflexivity.
Defined.

(** X4, with a document left active. *)
Lemma convert_step_missing_input_effects_witness :
  fst (convert_step "absent.step" "absent.stl" "stl" "0.1" Demo.world1) = Ret false /\
  calls (snd (convert_step "absent.step" "absent.stl" "stl" "0.1" Demo.world1)) =
    [CallCloseDocument "Sketch"].
Proof.
  destruct (convert_step_missing_input_effects (KD := Demo.data) (E := Demo.env)
              "absent.step" "absent.stl" "stl" "0.1" Demo.world1)
    as (Hfalse & _ & Hcalls & _).
  - reflexivity.
  - split; [exact Hfalse | exact Hcalls].
Defined.

(** X6, for [STL] and [ply]. *)
Lemma mesh_targets_share_export_witness :
  export_shape (KD := Demo.data) (E := Demo.env) "shape" "part.stl" "STL" "0.1" =
  export_shape (KD := Demo.data) (E := Demo.env) "shape" "part.stl" "ply" "0.1".
Proof.
  apply (mesh_targets_share_export (KD := Demo.data) (E := Demo.env)).
  - apply (bool_decide_unpack _). vm_compute. exact I.
  - apply (bool_decide_unpack _). vm_compute. exact I.
Defined.

(** X7, on the triangle: six line ends. *)
Lemma export_off_line_count_witness :
  exists content,
    files (snd (export_off Demo.triangle "part.off" Demo.world0)) !! "part.off"
      = Some content /\
    count_char newline content = 6.
Proof.
  destruct (export_off_line_count Demo.triangle "part.off" Demo.world0)
    as (content & Hfile & Hcount).
  - reflexivity.
  - apply Nat.leb_le. vm_compute. reflexivity.
  - reflexivity.
  - exists content. split; [exact Hfile | exact Hcount].
Defined.

(** X11, on a request that converts and is published. *)
Lemma job_lifecycle_witness :
  exists resp final,
    fst (convert Demo.request_with_bucket Demo.world1) = Ret resp /\
    (final = COMPLETED \/ final = FAILED) /\
    (statuses_written (job_oid Demo.world1)
       (new_writes Demo.world1 (snd (convert Demo.request_with_bucket Demo.world1))) =
       [PENDING; PROCESSING; final] \/
     statuses_written (job_oid Demo.world1)
       (new_writes Demo.world1 (snd (convert Demo.request_with_bucket Demo.world1))) =
       [PENDING; PROCESSING; UPLOADING; final]) /\
    final_status (job_oid Demo.world1)
      (snd (convert Demo.request_with_bucket Demo.world1)) = Some final /\
    (final = COMPLETED <-> code resp = 200).
Proof.
  apply (job_lifecycle Demo.request_with_bucket Demo.world1).
  reflexivity.
Defined.

(** X12, on the job of the earlier request. *)
Lemma other_records_untouched_witness :
  collection (snd (convert Demo.request_with_bucket Demo.world1)) !! 7 =
  Some Demo.earlier_job.
Proof.
  apply (other_records_untouched Demo.request_with_bucket Demo.world1 7 Demo.earlier_job).
  reflexivity.
Defined.

(** X13, on a request that converts and is published. *)
Lemma stored_record_witness :
  exists resp job,
    fst (convert Demo.request_with_bucket Demo.world1) = Ret resp /\
    collection (snd (convert Demo.request_with_bucket Demo.world1))
      !! job_oid Demo.world1 = Some job /\
    job_organization_id job = "org1" /\
    job_s3_bucket job = Some "bkt" /\
    job_expiryAt job = 1700086400%Z.
Proof.
  destruct (stored_record Demo.request_with_bucket Demo.world1 eq_refl)
    as (resp & job & Hresp & Hjob & Horg & Hbucket & Hexpiry & _).
  exists resp, job.
  split; [exact Hresp |]. split; [exact Hjob |]. split; [exact Horg |].
  split; [exact Hbucket | exact Hexpiry].
Defined.

(** X14, on a request that converts and is published. *)
Lemma s3_calls_of_request_witness :
  calls (snd (convert Demo.request_with_bucket Demo.world1)) =
  (calls (snd (conversion_of Demo.request_with_bucket Demo.world1)) ++
   [CallS3Upload "part.stl" "bkt" "part.stl"; CallS3Presign "bkt" "part.stl" 3600])%list.
Proof.
  pose proof (s3_calls_of_request Demo.request_with_bucket Demo.world1 eq_refl)
    as Hcalls.
  cbv zeta in Hcalls. rewrite Hcalls. f_equal.
Defined.

(** X15, on the same conversion without a bucket. *)
Lemma no_bucket_never_succeeds_witness :
  exists resp,
    fst (convert Demo.request_without_bucket Demo.world1) = Ret resp /\
    final_status (job_oid Demo.world1)
      (snd (convert Demo.request_without_bucket Demo.world1)) = Some FAILED /\
    body resp = jsonify [("error", JString (str_exn unbound_s3_download_link))].
Proof.
  destruct (no_bucket_never_succeeds Demo.request_without_bucket Demo.world1 eq_refl)
    as (resp & Hresp & _ & _ & Hvalid).
  destruct (Hvalid eq_refl) as [Hfinal Hbody].
  exists resp.
  split; [exact Hresp |]. split; [exact Hfinal |].
  apply Hbody. vm_compute. reflexivity.
Defined.

(** X16, on a request that converts and is published: the output file
    stays on disk and the document left active is closed. *)
Lemma handler_keeps_disk_and_kernel_witness :
  is_Some (files (snd (convert Demo.request_with_bucket Demo.world1)) !! "part.stl") /\
  ActiveDocument (snd (convert Demo.request_with_bucket Demo.world1)) = None.
Proof.
  destruct (handler_keeps_disk_and_kernel Demo.request_with_bucket Demo.world1 eq_refl)
    as (Hfiles & _ & Hactive).
  split; [| exact Hactive].
  rewrite Hfiles. vm_compute. eauto.
Defined.
